(** * OpenClaw follow-up queue, restart handoff and session proxy

    A shallow embedding of the follow-up queueing and delivery-routing core of
    the gateway:

    - [src/auto-reply/reply/queue/enqueue.ts]: [isRunAlreadyQueued],
      [enqueueFollowupRun];
    - the restart handoff ([saveRestartHandoff], [loadAndClearRestartHandoff]);
    - [src/sessions/session-state.ts] and the session proxy
      ([getSession], [clearSession], [tryProxyMessage]);
    - [src/sessions/tmux-runner.ts]: [extractNewContent],
      [isResponseComplete], [sendToTmux];
    - [src/sessions/resume-runner.ts]: [runWithResume];
    - the replay of a handoff ([replayHandoffQueues]) and the proxy gate of
      the Telegram message processor ([src/telegram/bot-message.ts]).

    JavaScript strings are sequences of UTF-16 code units, numbers that hold
    epoch milliseconds, counts and Telegram ids are integers, optional
    properties are [option]s, and mutable objects are passed as explicit
    state. *)

From Stdlib Require Import ZArith NArith String Ascii Bool Lia.
From stdpp Require Import base option list gmap.

Local Open Scope Z_scope.

(** ** JavaScript strings *)

Module JsString.

(** A string value: its UTF-16 code units. *)
Definition jsstring : Type := list N.

Definition bytes_of (s : string) : list N :=
  List.map N_of_ascii (list_ascii_of_string s).

(** Decoding of the UTF-8 bytes of a literal of this file into code units
    (supplementary planes become surrogate pairs). *)
Fixpoint utf8_decode (fuel : nat) (bs : list N) : jsstring :=
  match fuel with
  | O => []
  | S fuel' =>
    match bs with
    | [] => []
    | b0 :: r0 =>
      if (b0 <? 128)%N then b0 :: utf8_decode fuel' r0
      else if (b0 <? 224)%N then
        match r0 with
        | b1 :: r1 => ((b0 - 192) * 64 + (b1 - 128))%N :: utf8_decode fuel' r1
        | _ => []
        end
      else if (b0 <? 240)%N then
        match r0 with
        | b1 :: b2 :: r2 =>
            ((b0 - 224) * 4096 + (b1 - 128) * 64 + (b2 - 128))%N
              :: utf8_decode fuel' r2
        | _ => []
        end
      else
        match r0 with
        | b1 :: b2 :: b3 :: r3 =>
            let cp := ((b0 - 240) * 262144 + (b1 - 128) * 4096
                       + (b2 - 128) * 64 + (b3 - 128))%N in
            let v := (cp - 65536)%N in
            (55296 + v / 1024)%N :: (56320 + v mod 1024)%N
              :: utf8_decode fuel' r3
        | _ => []
        end
    end
  end.

Definition js (s : string) : jsstring :=
  let bs := bytes_of s in utf8_decode (length bs) bs.

(** ECMAScript [WhiteSpace] and [LineTerminator] code points: what
    [String.prototype.trim] strips and what the regular expression class
    [\s] matches. *)
Definition isWhiteSpace (c : N) : bool :=
  ((9 <=? c) && (c <=? 13) || (c =? 32) || (c =? 160) || (c =? 5760)
   || (8192 <=? c) && (c <=? 8202) || (c =? 8232) || (c =? 8233)
   || (c =? 8239) || (c =? 8287) || (c =? 12288) || (c =? 65279))%N.

Fixpoint trimStart (s : jsstring) : jsstring :=
  match s with
  | [] => []
  | c :: r => if isWhiteSpace c then trimStart r else s
  end.

Definition trimEnd (s : jsstring) : jsstring := rev (trimStart (rev s)).

(** [s.trim()] *)
Definition trim (s : jsstring) : jsstring := trimEnd (trimStart s).

(** [s.startsWith(p)] *)
Fixpoint startsWith (s p : jsstring) : bool :=
  match p, s with
  | [], _ => true
  | _ :: _, [] => false
  | a :: p', b :: s' => (a =? b)%N && startsWith s' p'
  end.

(** [s.includes(needle)] *)
Fixpoint includes (s needle : jsstring) : bool :=
  startsWith s needle
  || match s with
     | [] => false
     | _ :: r => includes r needle
     end.

(** [/^\s*$/.test(s)] *)
Definition isBlank (s : jsstring) : bool := forallb isWhiteSpace s.

(** [s.split("\n")]: never empty, the empty string splits into [[""]]. *)
Fixpoint splitLines (s : jsstring) : list jsstring :=
  match s with
  | [] => [[]]
  | c :: r =>
    if (c =? 10)%N then [] :: splitLines r
    else match splitLines r with
         | l :: ls => (c :: l) :: ls
         | [] => [[c]]
         end
  end.

(** [lines.join("\n")] *)
Fixpoint joinLines (ls : list jsstring) : jsstring :=
  match ls with
  | [] => []
  | [l] => l
  | l :: r => l ++ 10%N :: joinLines r
  end.

(** [s.slice(0, n)] and [s.slice(-n)] for a non-negative [n]. *)
Definition sliceTo (n : nat) (s : jsstring) : jsstring := take n s.
Definition sliceLast (n : nat) (s : jsstring) : jsstring :=
  drop (length s - n)%nat s.

(** Truthiness of an optional string: defined and not empty. *)
Definition truthy (o : option jsstring) : bool :=
  match o with
  | Some (_ :: _) => true
  | _ => false
  end.

(** [a || b] on optional strings. *)
Definition orElse (a b : option jsstring) : option jsstring :=
  if truthy a then a else b.

(** An optional string inside a template literal. *)
Definition interpolate (o : option jsstring) : jsstring :=
  match o with
  | Some s => s
  | None => js "undefined"
  end.

End JsString.
Export JsString.
Arguments js _%_string.

(** ** Follow-up queue: [src/auto-reply/reply/queue/enqueue.ts] *)

Module Queue.

(** [originatingThreadId?: string | number]; thread ids that are numbers are
    integers. *)
Inductive ThreadId : Type :=
  | ThreadStr (s : jsstring)
  | ThreadNum (n : Z).

#[global] Instance ThreadId_eq_dec : EqDecision ThreadId.
Proof. solve_decision. Defined.

(** The run context a FollowupRun refers to ([run.run]); the queue reads
    [workspaceDir], the handoff reads [sessionKey]. *)
Record RunContext : Type := mkRunContext {
  workspaceDir : option jsstring;
  sessionKey : option jsstring
}.

#[global] Instance RunContext_eq_dec : EqDecision RunContext.
Proof. solve_decision. Defined.

Record FollowupRun : Type := mkFollowupRun {
  prompt : jsstring;
  messageId : option jsstring;
  summaryLine : option jsstring;
  enqueuedAt : Z;
  originatingChannel : option jsstring;
  originatingTo : option jsstring;
  originatingAccountId : option jsstring;
  originatingThreadId : option ThreadId;
  run : option RunContext
}.

#[global] Instance FollowupRun_eq_dec : EqDecision FollowupRun.
Proof. solve_decision. Defined.

(** The queue object [getFollowupQueue(key, settings)] resolves. [cap] and
    [summaryLines] are the bookkeeping of the drop policy (bounded size, one
    summary line per evicted entry). *)
Record FollowupQueue : Type := mkFollowupQueue {
  items : list FollowupRun;
  draining : bool;
  lastEnqueuedAt : Z;
  lastRun : option RunContext;
  mode : jsstring;
  cap : Z;
  summaryLines : list jsstring
}.

Definition set_items (l : list FollowupRun) (q : FollowupQueue) : FollowupQueue :=
  mkFollowupQueue l (draining q) (lastEnqueuedAt q) (lastRun q) (mode q)
                  (cap q) (summaryLines q).

Definition set_lastEnqueuedAt (t : Z) (q : FollowupQueue) : FollowupQueue :=
  mkFollowupQueue (items q) (draining q) t (lastRun q) (mode q)
                  (cap q) (summaryLines q).

Definition set_lastRun (r : option RunContext) (q : FollowupQueue) : FollowupQueue :=
  mkFollowupQueue (items q) (draining q) (lastEnqueuedAt q) r (mode q)
                  (cap q) (summaryLines q).

Definition set_summaryLines (l : list jsstring) (q : FollowupQueue) : FollowupQueue :=
  mkFollowupQueue (items q) (draining q) (lastEnqueuedAt q) (lastRun q) (mode q)
                  (cap q) l.

Inductive QueueDedupeMode : Type :=
  | DedupeMessageId   (* "message-id" *)
  | DedupePrompt      (* "prompt" *)
  | DedupeNone.       (* "none" *)

(** The closure [hasSameRouting] of [isRunAlreadyQueued]: strict equality of
    the four originating fields. *)
Definition hasSameRouting (run item : FollowupRun) : bool :=
  bool_decide (originatingChannel item = originatingChannel run)
  && bool_decide (originatingTo item = originatingTo run)
  && bool_decide (originatingAccountId item = originatingAccountId run)
  && bool_decide (originatingThreadId item = originatingThreadId run).

Definition isRunAlreadyQueued (run : FollowupRun) (items : list FollowupRun)
    (allowPromptFallback : bool) : bool :=
  let messageId := trim <$> messageId run in
  if truthy messageId then
    existsb (fun item =>
               bool_decide (trim <$> Queue.messageId item = messageId)
               && hasSameRouting run item) items
  else if negb allowPromptFallback then false
  else
    existsb (fun item =>
               bool_decide (prompt item = prompt run)
               && hasSameRouting run item) items.

(** Modelled from the spec: [shouldSkipQueueItem] of [utils/queue-helpers.js]
    is not among the sources. Deduplication rejects a candidate when the
    deduplicator finds it already represented; with dedup disabled (mode
    "none", no [dedupe] callback) every candidate passes. *)
Definition shouldSkipQueueItem (item : FollowupRun) (items : list FollowupRun)
    (dedupe : option (FollowupRun -> list FollowupRun -> bool)) : bool :=
  match dedupe with
  | None => false
  | Some d => d item items
  end.

(** The [dedupe] callback [enqueueFollowupRun] builds from its mode. *)
Definition dedupeOf (dedupeMode : QueueDedupeMode)
    : option (FollowupRun -> list FollowupRun -> bool) :=
  match dedupeMode with
  | DedupeNone => None
  | _ => Some (fun item items =>
                 isRunAlreadyQueued item items
                   (match dedupeMode with DedupePrompt => true | _ => false end))
  end.

(** [(item) => item.summaryLine?.trim() || item.prompt.trim()] *)
Definition summarize (item : FollowupRun) : jsstring :=
  let s := trim <$> summaryLine item in
  if truthy s then interpolate s else trim (prompt item).

(** The fire-and-forget [appendFile(inboxFile, entry)]:
    [inboxFile = path.join(inboxDir, "OPENCLAW_INBOX.md")] and
    [entry = "\n---\n[" + ISO(inboxStamp) + "]\n" + inboxPrompt + "\n"]. *)
Record InboxWrite : Type := mkInboxWrite {
  inboxDir : jsstring;
  inboxStamp : Z;
  inboxPrompt : jsstring
}.

Record EnqueueResult : Type := mkEnqueueResult {
  enqueued : bool;               (* the returned boolean *)
  queueAfter : FollowupQueue;    (* the queue object after the call *)
  inbox : option InboxWrite      (* the inbox side-write, if one is issued *)
}.

(** The drop policy's type: it is handed the summarizer and the queue, and
    returns its verdict and the queue as it leaves it. *)
Definition DropPolicy : Type :=
  (FollowupRun -> jsstring) -> FollowupQueue -> bool * FollowupQueue.

Section Enqueue.

(** [applyQueueDropPolicy] of [utils/queue-helpers.js] is not among the
    sources; the orchestrator is stated over any drop policy. *)
Variable applyQueueDropPolicy : DropPolicy.

(** [enqueueFollowupRun], from the point where [queue] has been resolved for
    the key. [now] is [Date.now()] and [stamp] the [new Date()] of the inbox
    entry. *)
Definition enqueueFollowupRun (queue : FollowupQueue) (run : FollowupRun)
    (dedupeMode : QueueDedupeMode) (now stamp : Z) : EnqueueResult :=
  let dedupe := dedupeOf dedupeMode in
  if shouldSkipQueueItem run (items queue) dedupe then
    mkEnqueueResult false queue None
  else
    let queue := set_lastEnqueuedAt now queue in
    let queue := set_lastRun (Queue.run run) queue in
    let '(shouldEnqueue, queue) := applyQueueDropPolicy summarize queue in
    if negb shouldEnqueue then
      mkEnqueueResult false queue None
    else
      let queue := set_items (items queue ++ [run]) queue in
      if draining queue then
        let workspaceDir :=
          orElse (Queue.run run ≫= workspaceDir)
                 (lastRun queue ≫= Queue.workspaceDir) in
        if truthy workspaceDir then
          mkEnqueueResult true queue
            (Some (mkInboxWrite (interpolate workspaceDir) stamp
                                (trim (prompt run))))
        else
          mkEnqueueResult true queue None
      else
        mkEnqueueResult true queue None.

(** [getFollowupQueueDepth] on a resolved (or absent) queue. *)
Definition getFollowupQueueDepth (queue : option FollowupQueue) : nat :=
  match queue with
  | None => 0%nat
  | Some q => length (items q)
  end.

End Enqueue.

(** What the orchestrator relies on from a drop policy: it evicts and
    summarizes, so it leaves the enqueue bookkeeping alone and never adds
    items. *)
Record DropPolicyFrame (policy : DropPolicy) : Prop := mkDropPolicyFrame {
  frame_lastEnqueuedAt :
    forall s q, lastEnqueuedAt (snd (policy s q)) = lastEnqueuedAt q;
  frame_lastRun :
    forall s q, lastRun (snd (policy s q)) = lastRun q;
  frame_items :
    forall s q x, In x (items (snd (policy s q))) -> In x (items q)
}.

(** Modelled from the spec: the drop policy evaluator of
    [utils/queue-helpers.js] is not among the sources. Bounded-size FIFO
    eviction: when capacity is reached the oldest entry is dropped and its
    one-line summary is kept; the new item is accepted. *)
Definition fifoDropPolicy : DropPolicy := fun summarize q =>
  if (0 <? cap q) && (cap q <=? Z.of_nat (length (items q))) then
    match items q with
    | [] => (true, q)
    | oldest :: rest =>
        (true, set_summaryLines (summaryLines q ++ [summarize oldest])
                 (set_items rest q))
    end
  else (true, q).

(** An instance of the drop-policy interface that refuses the newcomer on a
    full queue instead of evicting; it exercises the branch of the
    orchestrator in which the drop policy rejects. *)
Definition rejectNewDropPolicy : DropPolicy := fun _ q =>
  if (0 <? cap q) && (cap q <=? Z.of_nat (length (items q))) then (false, q)
  else (true, q).

(** The four-field routing identity, as a proposition. *)
Definition sameRouting (a b : FollowupRun) : Prop :=
  originatingChannel a = originatingChannel b
  /\ originatingTo a = originatingTo b
  /\ originatingAccountId a = originatingAccountId b
  /\ originatingThreadId a = originatingThreadId b.

(** The queue as the drop policy receives it. *)
Definition touched (q : FollowupQueue) (r : FollowupRun) (now : Z) : FollowupQueue :=
  set_lastRun (run r) (set_lastEnqueuedAt now q).

End Queue.


(** ** Restart handoff *)

Module Handoff.
Import Queue.

(** Serializable subset of FollowupRun. *)
Record HandoffItem : Type := mkHandoffItem {
  hi_prompt : jsstring;
  hi_messageId : option jsstring;
  hi_summaryLine : option jsstring;
  hi_enqueuedAt : Z;
  hi_originatingChannel : option jsstring;
  hi_originatingTo : option jsstring;
  hi_originatingAccountId : option jsstring;
  hi_originatingThreadId : option ThreadId;
  hi_sessionKey : option jsstring
}.

Record HandoffQueue : Type := mkHandoffQueue {
  key : jsstring;
  hq_mode : jsstring;
  hq_items : list HandoffItem
}.

Record HandoffData : Type := mkHandoffData {
  savedAt : Z;
  version : Z;
  queues : list HandoffQueue
}.

#[global] Instance HandoffItem_eq_dec : EqDecision HandoffItem.
Proof. solve_decision. Defined.
#[global] Instance HandoffQueue_eq_dec : EqDecision HandoffQueue.
Proof. solve_decision. Defined.
#[global] Instance HandoffData_eq_dec : EqDecision HandoffData.
Proof. solve_decision. Defined.

Definition HANDOFF_MAX_AGE_MS : Z := 5 * 60 * 1000.

(** What the handoff file holds: text [JSON.parse] throws on, or the
    [JSON.stringify] of a snapshot. Content that parses to a value of another
    shape (which the cast [as HandoffData] lets through) has no value
    here. *)
Inductive FileContent : Type :=
  | Malformed (raw : jsstring)
  | Snapshot (data : HandoffData).

(** The file system as the two operations see it: the handoff file, if it
    exists, and whether reading, unlinking and writing it throw. The source
    catches each of these failures. *)
Record Fs : Type := mkFs {
  handoffFile : option FileContent;
  readFails : bool;
  unlinkFails : bool;
  writeFails : bool
}.

Definition set_handoffFile (f : option FileContent) (fs : Fs) : Fs :=
  mkFs f (readFails fs) (unlinkFails fs) (writeFails fs).

(** The projection [.map((item) => ({ ... }))] of [saveRestartHandoff]. *)
Definition toHandoffItem (item : FollowupRun) : HandoffItem :=
  mkHandoffItem (prompt item) (messageId item) (summaryLine item)
    (enqueuedAt item) (originatingChannel item) (originatingTo item)
    (originatingAccountId item) (originatingThreadId item)
    (run item ≫= sessionKey).

(** [queue.items.filter((item) => Boolean(item.originatingTo)).map(...)] *)
Definition serializableItems (queue : FollowupQueue) : list HandoffItem :=
  List.map toHandoffItem
    (List.filter (fun item => truthy (originatingTo item)) (items queue)).

(** One iteration of [for (const [key, queue] of FOLLOWUP_QUEUES)], on the
    accumulator [queues]. *)
Definition saveStep (queues : list HandoffQueue)
    (entry : jsstring * FollowupQueue) : list HandoffQueue :=
  let '(key, queue) := entry in
  if (length (items queue) =? 0)%nat then queues
  else
    let serializableItems := serializableItems queue in
    if (length serializableItems =? 0)%nat then queues
    else queues ++ [mkHandoffQueue key (mode queue) serializableItems].

(** [try { mkdirSync; writeFileSync(handoffPath, JSON.stringify(data)) }
     catch { log }] *)
Definition tryWriteHandoff (data : HandoffData) (fs : Fs) : Fs :=
  if writeFails fs then fs else set_handoffFile (Some (Snapshot data)) fs.

(** [saveRestartHandoff]; [FOLLOWUP_QUEUES] is the map's entries in
    insertion order, [now] is [Date.now()]. *)
Definition saveRestartHandoff (FOLLOWUP_QUEUES : list (jsstring * FollowupQueue))
    (now : Z) (fs : Fs) : Fs :=
  let queues := fold_left saveStep FOLLOWUP_QUEUES [] in
  if (length queues =? 0)%nat then fs
  else
    let data := mkHandoffData now 1 queues in
    tryWriteHandoff data fs.

(** [try { unlinkSync(handoffPath) } catch { }] *)
Definition tryUnlinkHandoff (fs : Fs) : Fs :=
  if unlinkFails fs then fs else set_handoffFile None fs.

(** [JSON.parse(raw) as HandoffData]; [None] when it throws. *)
Definition JSON_parse (raw : FileContent) : option HandoffData :=
  match raw with
  | Malformed _ => None
  | Snapshot data => Some data
  end.

(** [loadAndClearRestartHandoff]: the returned snapshot ([None] for [null])
    and the file system after the call. *)
Definition loadAndClearRestartHandoff (now : Z) (fs : Fs)
    : option HandoffData * Fs :=
  match handoffFile fs with
  | None => (None, fs)
  | Some raw =>
    if readFails fs then (None, fs)
    else
      let fs := tryUnlinkHandoff fs in
      match JSON_parse raw with
      | None => (None, fs)
      | Some data =>
        if HANDOFF_MAX_AGE_MS <? now - savedAt data then (None, fs)
        else (Some data, fs)
      end
  end.

(** What [loadAndClearRestartHandoff] returns once the file has been read:
    the parsed snapshot unless it is stale. *)
Definition loaded (now : Z) (raw : FileContent) : option HandoffData :=
  match JSON_parse raw with
  | None => None
  | Some data =>
      if HANDOFF_MAX_AGE_MS <? now - savedAt data then None else Some data
  end.

(** The snapshot queues in the words of the specification: every queue
    contributes, in order, the projections of its items that carry
    [originatingTo]; a queue that contributes nothing is left out. *)
Definition carriesOriginatingTo (item : FollowupRun) : bool :=
  match originatingTo item with
  | Some to => negb (bool_decide (to = []))
  | None => false
  end.

Definition contribution (entry : jsstring * FollowupQueue) : HandoffQueue :=
  mkHandoffQueue (fst entry) (mode (snd entry))
    (List.map toHandoffItem (List.filter carriesOriginatingTo (items (snd entry)))).

Definition persistedQueues (FOLLOWUP_QUEUES : list (jsstring * FollowupQueue))
    : list HandoffQueue :=
  List.filter (fun hq => negb (bool_decide (hq_items hq = [])))
    (List.map contribution FOLLOWUP_QUEUES).

End Handoff.

(** ** The snapshot in the words of the specification *)

Module HandoffSpec.
Import Queue Handoff.

(** HandoffItem: the serializable projection of a FollowupRun, field by
    field. *)
Definition describedItem (item : FollowupRun) : HandoffItem :=
  {| hi_prompt := prompt item;
     hi_messageId := messageId item;
     hi_summaryLine := summaryLine item;
     hi_enqueuedAt := enqueuedAt item;
     hi_originatingChannel := originatingChannel item;
     hi_originatingTo := originatingTo item;
     hi_originatingAccountId := originatingAccountId item;
     hi_originatingThreadId := originatingThreadId item;
     hi_sessionKey :=
       match run item with
       | Some context => sessionKey context
       | None => None
       end |}.

(** Whether an item has an external destination. *)
Definition hasDestination (item : FollowupRun) : bool :=
  match originatingTo item with
  | Some (_ :: _) => true
  | _ => false
  end.

(** Each queue contributes, in order, the projections of its items that
    carry a non-empty originatingTo, under its key and mode; queues that
    contribute nothing are left out. *)
Definition describedQueues (FOLLOWUP_QUEUES : list (jsstring * FollowupQueue))
    : list HandoffQueue :=
  List.filter
    (fun hq => match hq_items hq with [] => false | _ :: _ => true end)
    (List.map
       (fun entry : jsstring * FollowupQueue =>
          {| key := fst entry;
             hq_mode := mode (snd entry);
             hq_items :=
               List.map describedItem
                 (List.filter hasDestination (items (snd entry))) |})
       FOLLOWUP_QUEUES).

End HandoffSpec.

(** ** tmux driver: [src/sessions/tmux-runner.ts] *)

Module Tmux.

Record TmuxRunResult : Type := mkTmuxRunResult {
  success : bool;
  output : jsstring;
  error : option jsstring
}.

(** The loop that looks for the first index where the captures diverge;
    [i] is the loop counter, [dflt] the initial [beforeLines.length]. *)
Fixpoint divergeFrom (i : nat) (beforeLines afterLines : list jsstring)
    (dflt : nat) : nat :=
  match beforeLines, afterLines with
  | b :: bs, a :: as_ =>
      if bool_decide (b = a) then divergeFrom (S i) bs as_ dflt else i
  | _, _ => dflt
  end.

(** [lines.indexOf(l)]: first index holding [l], [-1] when absent. *)
Fixpoint indexOf (lines : list jsstring) (l : jsstring) : Z :=
  match lines with
  | [] => -1
  | x :: r =>
      if bool_decide (x = l) then 0
      else let i := indexOf r l in if i <? 0 then -1 else i + 1
  end.

Definition PROMPT_GLYPH : jsstring := Eval vm_compute in js "❯".
Definition BYPASS_BANNER : jsstring :=
  Eval vm_compute in js "⏵⏵ bypass permissions".
Definition SEPARATOR : jsstring := Eval vm_compute in js "──────────────".
Definition NO_RESPONSE : jsstring := Eval vm_compute in js "(нет ответа)".

(** The predicate of [newLines.filter(...)]. *)
Definition keepLine (newLines : list jsstring) (l : jsstring) : bool :=
  (negb (startsWith (trim l) PROMPT_GLYPH)
   && negb (includes l BYPASS_BANNER)
   && negb (includes l SEPARATOR)
   && negb (isBlank l))
  || ((0 <? indexOf newLines l)
      && (indexOf newLines l <? Z.of_nat (length newLines) - 3)).

Definition extractNewContent (before after : jsstring) : jsstring :=
  let beforeLines := splitLines before in
  let afterLines := splitLines after in
  let divergeIdx :=
    divergeFrom 0 beforeLines afterLines (length beforeLines) in
  let newLines := drop divergeIdx afterLines in
  let filtered := trim (joinLines (List.filter (keepLine newLines) newLines)) in
  if truthy (Some filtered) then filtered else NO_RESPONSE.

End Tmux.

(** ** resume driver: [src/sessions/resume-runner.ts] *)

Module Resume.

Record ResumeRunResult : Type := mkResumeRunResult {
  success : bool;
  output : jsstring;
  error : option jsstring
}.

End Resume.

(** ** Session store and proxy: [src/sessions/session-state.ts] *)

Module Sessions.

Inductive SessionMode : Type :=
  | ModeTmux      (* "tmux" *)
  | ModeResume.   (* "resume" *)

#[global] Instance SessionMode_eq_dec : EqDecision SessionMode.
Proof. solve_decision. Defined.

Record SessionEntry : Type := mkSessionEntry {
  mode : SessionMode;
  tmuxSession : option jsstring;
  resumeId : option jsstring;
  cwd : option jsstring;
  label : option jsstring;
  switchedAt : jsstring
}.

(** [Record<string, SessionEntry>], the content of session-state.json: an
    unreadable or malformed file is the empty store ([loadState] catches).
    Chat ids are the decimal renderings of Telegram chat ids, so a key never
    names a member of [Object.prototype]. [saveState] has no error handling:
    a write that throws escapes [tryProxyMessage] as an exception, and the
    functions below describe the calls that return. *)
Abbreviation StateStore := (gmap jsstring SessionEntry).

Definition getSession (chatId : jsstring) (store : StateStore)
    : option SessionEntry :=
  store !! chatId.



Definition clearSession (chatId : jsstring) (store : StateStore)
    : bool * StateStore :=
  match store !! chatId with
  | None => (false, store)
  | Some _ => (true, delete chatId store)
  end.

Definition BACK_COMMANDS : list jsstring :=
  Eval vm_compute in
  [ js "назад"; js "back"; js "вернись"; js "выйти"; js "выйди";
    js "отключить"; js "detach"; js "exit session"; js "выход из сессии";
    js "вернуться" ].

Definition SCREEN_COMMANDS : list jsstring :=
  Eval vm_compute in
  [ js "экран"; js "screen"; js "что там"; js "покажи экран"; js "capture";
    js "статус" ].

Record ProxyResult : Type := mkProxyResult {
  handled : bool;
  response : option jsstring
}.

Definition nl : jsstring := [10%N].

(** [formatLabel(label, sessionId)] *)
Definition formatLabel (label : option jsstring) (sessionId : jsstring)
    : jsstring :=
  let displayLabel :=
    match label with
    | Some l => l
    | None => sliceTo 8 sessionId
    end in
  let truncated :=
    if (40 <? length displayLabel)%nat
    then sliceTo 40 displayLabel ++ js "…"
    else displayLabel in
  js "[Сессия: " ++ truncated ++ js "]".

Section Proxy.

(** [String.prototype.toLowerCase]. *)
Variable toLowerCase : jsstring -> jsstring.

(** The terminal multiplexer and the resumed CLI, as the proxy calls them. *)
Variable checkTmuxSession : jsstring -> bool.
Variable captureTmuxScreen : jsstring -> jsstring.
Variable sendToTmux : jsstring -> jsstring -> Tmux.TmuxRunResult.
Variable runWithResume : jsstring -> jsstring -> jsstring -> Resume.ResumeRunResult.

Definition isBackCommand (text : jsstring) : bool :=
  bool_decide (trim (toLowerCase text) ∈ BACK_COMMANDS).

Definition isScreenCommand (text : jsstring) : bool :=
  bool_decide (trim (toLowerCase text) ∈ SCREEN_COMMANDS).

(** [tryProxyMessage]: the result and the session store after the call. *)
Definition tryProxyMessage (chatId messageText : jsstring)
    (store : StateStore) : ProxyResult * StateStore :=
  match getSession chatId store with
  | None => (mkProxyResult false None, store)
  | Some session =>
    if isBackCommand messageText then
      let store := snd (clearSession chatId store) in
      let mode :=
        match mode session with
        | ModeTmux => js "tmux:" ++ interpolate (tmuxSession session)
        | ModeResume =>
            js "resume:" ++ interpolate (sliceTo 8 <$> resumeId session)
        end in
      (mkProxyResult true
         (Some (js "Вернулся в основную сессию." ++ nl
                ++ js "_(была подключена: " ++ mode ++ js ")_")),
       store)
    else if bool_decide (mode session = ModeTmux)
            && truthy (tmuxSession session) then
      let tmuxName := interpolate (tmuxSession session) in
      let label := formatLabel (label session) tmuxName in
      if negb (checkTmuxSession tmuxName) then
        let store := snd (clearSession chatId store) in
        (mkProxyResult true
           (Some (js "tmux сессия '" ++ tmuxName
                  ++ js "' не найдена — возможно была закрыта." ++ nl
                  ++ js "Вернулся в обычный режим.")),
         store)
      else if isScreenCommand messageText then
        let screen := captureTmuxScreen tmuxName in
        let trimmed := sliceLast 3000 (trim screen) in
        (mkProxyResult true
           (Some (label ++ js " — текущий экран:" ++ nl ++ js "```" ++ nl
                  ++ trimmed ++ nl ++ js "```")),
         store)
      else
        let result := sendToTmux tmuxName messageText in
        if negb (Tmux.success result) then
          (mkProxyResult true
             (Some (label ++ nl ++ nl ++ js "Ошибка tmux: "
                    ++ interpolate (Tmux.error result))),
           store)
        else
          let output := sliceTo 4000 (Tmux.output result) in
          (mkProxyResult true (Some (label ++ nl ++ nl ++ output)), store)
    else if bool_decide (mode session = ModeResume)
            && truthy (resumeId session) && truthy (cwd session) then
      let label :=
        formatLabel (label session) (interpolate (resumeId session)) in
      let result :=
        runWithResume (interpolate (resumeId session))
                      (interpolate (cwd session)) messageText in
      if negb (Resume.success result) then
        (mkProxyResult true
           (Some (label ++ nl ++ nl ++ js "Ошибка resume: "
                  ++ interpolate (Resume.error result))),
         store)
      else
        let output := sliceTo 4000 (Resume.output result) in
        (mkProxyResult true (Some (label ++ nl ++ nl ++ output)), store)
    else (mkProxyResult false None, store)
  end.

End Proxy.

(** The simple lower-case mapping on Basic Latin and on the Cyrillic block
    (the alphabets of the command vocabularies); other code units are left
    as they are. *)
Definition lowerUnit (c : N) : N :=
  if ((65 <=? c) && (c <=? 90))%N then (c + 32)%N
  else if ((1040 <=? c) && (c <=? 1071))%N then (c + 32)%N
  else if ((1024 <=? c) && (c <=? 1039))%N then (c + 80)%N
  else c.

Definition toLowerCaseBasic (s : jsstring) : jsstring := List.map lowerUnit s.

End Sessions.

(** ** Concrete values used to evaluate the model *)

Module Examples.
Import Queue.

Definition mainContext : RunContext :=
  mkRunContext (Some (js "/home/dim/ws")) (Some (js "agent:main")).

(** A run whose context carries no [workspaceDir]. *)
Definition sparseContext : RunContext := mkRunContext None None.

Definition runA : FollowupRun :=
  mkFollowupRun (js "deploy the api") (Some (js " m-1 ")) None 1000
    (Some (js "telegram")) (Some (js "123")) None (Some (ThreadNum 7))
    (Some mainContext).

(** The channel adapter's retry of [runA]: same id, same routing. *)
Definition runA_retry : FollowupRun :=
  mkFollowupRun (js "deploy the api") (Some (js "m-1")) None 1500
    (Some (js "telegram")) (Some (js "123")) None (Some (ThreadNum 7))
    (Some mainContext).

(** Same id as [runA], another destination. *)
Definition runB : FollowupRun :=
  mkFollowupRun (js "deploy the api") (Some (js "m-1")) None 2000
    (Some (js "telegram")) (Some (js "456")) None (Some (ThreadNum 7))
    (Some mainContext).

(** An internal run: no external destination. *)
Definition runInternal : FollowupRun :=
  mkFollowupRun (js "heartbeat") None None 2500 None None None None
    (Some mainContext).

Definition runSparse : FollowupRun :=
  mkFollowupRun (js " status? ") (Some (js "m-2")) None 3000
    (Some (js "telegram")) (Some (js "123")) None (Some (ThreadNum 7))
    (Some sparseContext).

Definition emptyQueue : FollowupQueue :=
  mkFollowupQueue [] false 0 None (js "followup") 20 [].

Definition queueWithA : FollowupQueue :=
  mkFollowupQueue [runA] false 1000 (Some mainContext) (js "followup") 20 [].

(** A queue at its capacity of one. *)
Definition fullQueue : FollowupQueue :=
  mkFollowupQueue [runA] false 1000 (Some mainContext) (js "followup") 1 [].

(** A queue that is being drained and remembers a run with a workspace. *)
Definition drainingQueue : FollowupQueue :=
  mkFollowupQueue [] true 1000 (Some mainContext) (js "followup") 20 [].

Definition mixedQueue : FollowupQueue :=
  mkFollowupQueue [runA; runInternal] false 2500 (Some mainContext)
    (js "followup") 20 [].

Definition internalQueue : FollowupQueue :=
  mkFollowupQueue [runInternal] false 2500 (Some mainContext)
    (js "collect") 20 [].

Definition allQueues : list (jsstring * FollowupQueue) :=
  [ (js "agent:idle", emptyQueue);
    (js "agent:main", mixedQueue);
    (js "agent:cron", internalQueue) ].

Definition cleanFs : Handoff.Fs := Handoff.mkFs None false false false.

Definition snapshotAt (savedAt : Z) : Handoff.HandoffData :=
  Handoff.mkHandoffData savedAt 1
    [Handoff.mkHandoffQueue (js "agent:main") (js "followup")
       [Handoff.toHandoffItem runA]].

Definition fsWith (c : Handoff.FileContent) : Handoff.Fs :=
  Handoff.mkFs (Some c) false false false.

(** The handoff file sits in a directory that does not let it be removed. *)
Definition stickyFs (c : Handoff.FileContent) : Handoff.Fs :=
  Handoff.mkFs (Some c) false true false.

Definition tmuxEntry : Sessions.SessionEntry :=
  Sessions.mkSessionEntry Sessions.ModeTmux (Some (js "claude-main")) None None
    (Some (js "main")) (js "2026-01-01T00:00:00.000Z").

(** Entries whose mode-specific fields are missing. *)
Definition tmuxEntryNoName : Sessions.SessionEntry :=
  Sessions.mkSessionEntry Sessions.ModeTmux None None None
    (Some (js "main")) (js "2026-01-01T00:00:00.000Z").

Definition resumeEntryNoCwd : Sessions.SessionEntry :=
  Sessions.mkSessionEntry Sessions.ModeResume None (Some (js "0f3c9a1e-77"))
    None None (js "2026-01-01T00:00:00.000Z").

Definition chat : jsstring := js "42".

Definition storeWith (e : Sessions.SessionEntry) : gmap jsstring Sessions.SessionEntry :=
  {[ chat := e ]}.

(** An environment without a live multiplexer or CLI. *)
Definition noTmux (name : jsstring) : bool := false.
Definition blankScreen (name : jsstring) : jsstring := [].
Definition deadTmux (name message : jsstring) : Tmux.TmuxRunResult :=
  Tmux.mkTmuxRunResult false [] (Some (js "tmux: no server")).
Definition deadResume (sessionId cwd message : jsstring) : Resume.ResumeRunResult :=
  Resume.mkResumeRunResult false [] (Some (js "claude: not found")).

(** Pane captures: nothing on screen before, six new lines after, the
    second of which is the decorative separator. *)
Definition paneBefore : jsstring := [].
Definition paneAfter : jsstring :=
  js "a" ++ [10%N] ++ Tmux.SEPARATOR ++ [10%N] ++ js "b" ++ [10%N]
  ++ js "c" ++ [10%N] ++ js "d" ++ [10%N] ++ js "e".

End Examples.

(** ** Number rendering *)

Module JsNumber.

(** The decimal digits of a natural number, most significant first. *)
Fixpoint digitsN (fuel : nat) (n : N) (acc : jsstring) : jsstring :=
  match fuel with
  | O => acc
  | S fuel' =>
      let acc' := (48 + n mod 10)%N :: acc in
      if (n <? 10)%N then acc' else digitsN fuel' (n / 10)%N acc'
  end.

(** [String(n)] for an integer [n] (below the magnitude where JavaScript
    switches to exponent notation). *)
Definition stringOfZ (n : Z) : jsstring :=
  let m := Z.to_N (Z.abs n) in
  let ds := digitsN (S (N.to_nat (N.log2 m))) m [] in
  if n <? 0 then 45%N :: ds else ds.

End JsNumber.

(** ** The earlier revision of [enqueueFollowupRun]
    ([src/auto-reply/reply/queue/enqueue.ts], first document) *)

Module QueueRev1.
Import Queue.

Section Enqueue.

Variable applyQueueDropPolicy : DropPolicy.

(** The revision whose side-write reads [run.run?.workspaceDir] only. *)
Definition enqueueFollowupRunRev1 (queue : FollowupQueue) (run : FollowupRun)
    (dedupeMode : QueueDedupeMode) (now stamp : Z) : EnqueueResult :=
  let dedupe := dedupeOf dedupeMode in
  if shouldSkipQueueItem run (items queue) dedupe then
    mkEnqueueResult false queue None
  else
    let queue := set_lastEnqueuedAt now queue in
    let queue := set_lastRun (Queue.run run) queue in
    let '(shouldEnqueue, queue) := applyQueueDropPolicy summarize queue in
    if negb shouldEnqueue then
      mkEnqueueResult false queue None
    else
      let queue := set_items (items queue ++ [run]) queue in
      if draining queue then
        let workspaceDir := Queue.run run ≫= workspaceDir in
        if truthy workspaceDir then
          mkEnqueueResult true queue
            (Some (mkInboxWrite (interpolate workspaceDir) stamp
                                (trim (prompt run))))
        else
          mkEnqueueResult true queue None
      else
        mkEnqueueResult true queue None.

End Enqueue.

End QueueRev1.

(** ** Replay of a handoff snapshot: [replayHandoffQueues] *)

Module Replay.
Import Queue Handoff.

(** The [params] of the gateway call [callGateway({ method: "agent", ... })]. *)
Record AgentParams : Type := mkAgentParams {
  p_sessionKey : jsstring;
  p_message : jsstring;
  p_deliver : bool;
  p_channel : option jsstring;
  p_to : option jsstring;
  p_accountId : option jsstring;
  p_threadId : option jsstring
}.

(** [String(item.originatingThreadId)] *)
Definition stringOfThreadId (t : ThreadId) : jsstring :=
  match t with
  | ThreadStr s => s
  | ThreadNum n => JsNumber.stringOfZ n
  end.

Definition replayParams (queue : HandoffQueue) (item : HandoffItem)
    : AgentParams :=
  mkAgentParams
    (match hi_sessionKey item with Some k => k | None => key queue end)
    (hi_prompt item)
    true
    (hi_originatingChannel item)
    (hi_originatingTo item)
    (hi_originatingAccountId item)
    (stringOfThreadId <$> hi_originatingThreadId item).

(** One replayed item, as the log records it. *)
Inductive ReplayEvent : Type :=
  | Replayed (params : AgentParams)
  | ReplayFailed (params : AgentParams).

Section Replay.

(** [callGateway]: [true] when the call resolves, [false] when it throws. *)
Variable callGateway : AgentParams -> bool.

(** The body of the inner loop, with its [try]/[catch], on the log so far. *)
Definition replayItem (queue : HandoffQueue) (log : list ReplayEvent)
    (item : HandoffItem) : list ReplayEvent :=
  let params := replayParams queue item in
  if callGateway params then log ++ [Replayed params]
  else log ++ [ReplayFailed params].

Definition replayQueue (log : list ReplayEvent) (queue : HandoffQueue)
    : list ReplayEvent :=
  fold_left (replayItem queue) (hq_items queue) log.

(** [replayHandoffQueues]: the gateway calls it makes, in order, each with
    its outcome. *)
Definition replayHandoffQueues (handoff : HandoffData) : list ReplayEvent :=
  fold_left replayQueue (queues handoff) [].

End Replay.

Definition eventParams (e : ReplayEvent) : AgentParams :=
  match e with
  | Replayed p => p
  | ReplayFailed p => p
  end.

(** An event records the outcome of its own call. *)
Definition recordsOutcome (callGateway : AgentParams -> bool)
    (e : ReplayEvent) : Prop :=
  match e with
  | Replayed p => callGateway p = true
  | ReplayFailed p => callGateway p = false
  end.

(** The calls a snapshot asks for: one per item, queue by queue. *)
Definition expectedCalls (handoff : HandoffData) : list AgentParams :=
  flat_map (fun queue => List.map (replayParams queue) (hq_items queue))
           (queues handoff).

End Replay.

(** ** [runWithResume]: [src/sessions/resume-runner.ts] *)

Module ResumeRunner.
Import Resume.

(** What [spawnSync] is asked to run. *)
Record SpawnRequest : Type := mkSpawnRequest {
  command : jsstring;
  args : list jsstring;
  spawnCwd : jsstring;
  timeoutMs : Z
}.

(** What [spawnSync] returns: [spawnError] is [String(result.error)] when the
    process could not be run or timed out, [status] the exit code ([None] for
    [null], a process ended by a signal). *)
Record SpawnResult : Type := mkSpawnResult {
  spawnError : option jsstring;
  status : option Z;
  stdout : option jsstring;
  stderr : option jsstring
}.

Definition orEmpty (o : option jsstring) : jsstring :=
  match o with
  | Some s => s
  | None => []
  end.

Definition resumeRequest (sessionId cwd message : jsstring) : SpawnRequest :=
  mkSpawnRequest (js "claude")
    [ js "--resume"; sessionId; js "-p"; message; js "--output-format";
      js "text"; js "--dangerously-skip-permissions" ]
    cwd 120000.

Section Runner.

Variable spawnSync : SpawnRequest -> SpawnResult.

Definition runWithResume (sessionId cwd message : jsstring) : ResumeRunResult :=
  let result := spawnSync (resumeRequest sessionId cwd message) in
  match spawnError result with
  | Some e => mkResumeRunResult false [] (Some e)
  | None =>
    if negb (bool_decide (status result = Some 0)) then
      let errMsg := trim (orEmpty (stderr result)) in
      mkResumeRunResult false []
        (Some (if truthy (Some errMsg) then errMsg
               else js "claude завершился с кодом "
                    ++ match status result with
                       | Some code => JsNumber.stringOfZ code
                       | None => js "null"
                       end))
    else
      let output := trim (orEmpty (stdout result)) in
      mkResumeRunResult true output None
  end.

End Runner.

End ResumeRunner.

(** ** The proxy gate of the Telegram message processor
    ([src/telegram/bot-message.ts]) *)

Module Gate.
Import Sessions.

(** What the processor does with a built message context. *)
Inductive Routed : Type :=
  | ProxyReply (chatId response : jsstring)   (* sendMessageTelegram, return *)
  | Dispatched.                               (* dispatchTelegramMessage *)

Section Gate.

Variable toLowerCase : jsstring -> jsstring.
Variable checkTmuxSession : jsstring -> bool.
Variable captureTmuxScreen : jsstring -> jsstring.
Variable sendToTmux : jsstring -> jsstring -> Tmux.TmuxRunResult.
Variable runWithResume : jsstring -> jsstring -> jsstring -> Resume.ResumeRunResult.

(** The session-proxy block: [rawText] is the message body ([""] when there
    is none), [chatIdStr] is [String(context.chatId)]. *)
Definition routeMessage (rawText chatIdStr : jsstring) (store : StateStore)
    : Routed * StateStore :=
  if truthy (Some rawText) && truthy (Some chatIdStr) then
    let '(proxyResult, store) :=
      tryProxyMessage toLowerCase checkTmuxSession captureTmuxScreen
        sendToTmux runWithResume chatIdStr rawText store in
    if handled proxyResult && truthy (response proxyResult) then
      (ProxyReply chatIdStr (interpolate (response proxyResult)), store)
    else (Dispatched, store)
  else (Dispatched, store).

End Gate.

End Gate.

(** ** The tmux reply-wait protocol: [isResponseComplete], [sendToTmux]
    ([src/sessions/tmux-runner.ts]) *)

Module TmuxWait.
Import Tmux.

Definition POLL_INTERVAL_MS : Z := 2000.
Definition MAX_WAIT_MS : Z := 120000.
Definition STABLE_DURATION_MS : Z := 5000.
Definition INITIAL_WAIT_MS : Z := 3000.

(** [lines.slice(-n)] *)
Definition lastLines (n : nat) (lines : list jsstring) : list jsstring :=
  drop (length lines - n)%nat lines.

(** [/^\s*[$#]\s*$/.test(s)] *)
Definition matchesShellPrompt (s : jsstring) : bool :=
  match trimStart s with
  | c :: r => ((c =? 36) || (c =? 35))%N && isBlank r
  | [] => false
  end.

Definition isDigit (c : N) : bool := ((48 <=? c) && (c <=? 57))%N.

Fixpoint skipDigits (s : jsstring) : jsstring :=
  match s with
  | [] => []
  | c :: r => if isDigit c then skipDigits r else s
  end.

Definition TIMER_TAIL : jsstring := Eval vm_compute in js "s ·".

(** [/\(\d+s ·/] anchored at the head of [s]. *)
Definition timerAt (s : jsstring) : bool :=
  match s with
  | c :: d :: r => (c =? 40)%N && isDigit d && startsWith (skipDigits r) TIMER_TAIL
  | _ => false
  end.

(** [/\(\d+s ·/.test(s)] *)
Fixpoint matchesTimer (s : jsstring) : bool :=
  timerAt s
  || match s with
     | [] => false
     | _ :: r => matchesTimer r
     end.

Definition isResponseComplete (pane : jsstring) : bool :=
  let lines := splitLines (trimEnd pane) in
  let tail := joinLines (lastLines 8 lines) in
  let hasPrompt :=
    includes tail (js "❯") || includes tail (js "> ")
    || matchesShellPrompt tail in
  let isBusy :=
    includes tail (js "Fluttering")
    || includes tail (js "Thinking")
    || includes tail (js "Analyzing")
    || includes tail (js "⏵⏵")
    || includes tail (js "● ")
    || includes tail (js "✻ ")
    || includes tail (js "↓ ")
    || matchesTimer tail in
  hasPrompt && negb isBusy.

(** The terminal multiplexer and the clock as [sendToTmux] meets them.
    [paneAt n] is what the n-th capture after the initial wait returns (the
    empty string when the capture fails); time passes in the blocking calls
    only: the n-th capture takes [captureMs n], the n-th sleep lasts the poll
    interval and [lateMs n] more. *)
Record TmuxEnv : Type := mkTmuxEnv {
  sessionExists : bool;
  paneBeforeSend : jsstring;
  paneAt : nat -> jsstring;
  startTime : Z;
  captureMs : nat -> Z;
  lateMs : nat -> Z
}.

(** How the polling loop ends: inside the loop at a poll, or after the loop
    with the final capture. *)
Inductive WaitOutcome : Type :=
  | Completed (poll : nat)
  | TimedOut (poll : nat)
  | OutOfFuel.

(** The [while] loop: [i] counts the captures made, [t] is the clock at the
    loop test, [lastCapture] and [stableStart] are the loop's variables. *)
Fixpoint pollLoop (fuel : nat) (env : TmuxEnv) (i : nat) (t : Z)
    (lastCapture : jsstring) (stableStart : Z) : WaitOutcome :=
  match fuel with
  | O => OutOfFuel
  | S fuel' =>
    if t - startTime env <? MAX_WAIT_MS then
      let current := paneAt env i in
      let t := t + captureMs env i in
      if bool_decide (current = lastCapture) then
        let stableStart := if stableStart =? 0 then t else stableStart in
        let stableMs := t - stableStart in
        if (STABLE_DURATION_MS <=? stableMs) && isResponseComplete current
        then Completed i
        else pollLoop fuel' env (S i) (t + POLL_INTERVAL_MS + lateMs env i)
                      lastCapture stableStart
      else
        pollLoop fuel' env (S i) (t + POLL_INTERVAL_MS + lateMs env i)
                 current 0
    else TimedOut i
  end.

(** The two [send-keys] calls. *)
Inductive TmuxKeys : Type :=
  | LiteralKeys (text : jsstring)   (* send-keys -l -- <text> *)
  | EnterKey.                       (* send-keys Enter *)

Definition TIMEOUT_NOTE : jsstring :=
  Eval vm_compute in
  [10%N; 10%N] ++ js "_(таймаут ожидания — ответ может быть неполным)_".

(** [sendToTmux]: its result and the keys it sent; [None] when [fuel] polls
    were not enough to leave the loop. *)
Definition sendToTmux (fuel : nat) (env : TmuxEnv) (sessionName message : jsstring)
    : option (TmuxRunResult * list TmuxKeys) :=
  if negb (sessionExists env) then
    Some (mkTmuxRunResult false []
            (Some (js "tmux сессия '" ++ sessionName ++ js "' не найдена")),
          [])
  else
    let before := paneBeforeSend env in
    let keys := [LiteralKeys message; EnterKey] in
    match pollLoop fuel env 0 (startTime env) [] 0 with
    | Completed i =>
        let output := extractNewContent before (paneAt env i) in
        Some (mkTmuxRunResult true output None, keys)
    | TimedOut i =>
        let output := extractNewContent before (paneAt env i) in
        Some (mkTmuxRunResult true (output ++ TIMEOUT_NOTE) None, keys)
    | OutOfFuel => None
    end.

(** What the loop variables hold at the i-th loop test. *)
Definition loopInvariant (env : TmuxEnv) (i : nat) (lastCapture : jsstring)
    (stableStart : Z) : Prop :=
  (i = 0%nat -> lastCapture = [])
  /\ (forall k, i = S k -> lastCapture = paneAt env k)
  /\ (stableStart <> 0 ->
      (i = 1%nat /\ paneAt env 0 = [])
      \/ (exists k, i = S (S k) /\ paneAt env (S k) = paneAt env k)).


End TmuxWait.

(** ** Auxiliary notions for [extractNewContent] *)

Module TmuxAux.
Import Tmux.

(** The [newLines] of [extractNewContent]: the lines of the after-capture
    from the divergence index on. *)
Definition newLinesOf (before after : jsstring) : list jsstring :=
  drop (divergeFrom 0 (splitLines before) (splitLines after)
          (length (splitLines before)))
       (splitLines after).

End TmuxAux.

(** ** More concrete values *)

Module Examples2.
Import Queue Examples.

(** A run without a usable messageId. *)
Definition runNoId : FollowupRun :=
  mkFollowupRun (js "what is the status?") (Some (js "   ")) None 4000
    (Some (js "webchat")) (Some (js "u-9")) None None (Some mainContext).

Definition queueWithNoId : FollowupQueue :=
  mkFollowupQueue [runNoId] false 4000 (Some mainContext) (js "followup") 20 [].

(** A draining queue over the workspace of [mainContext]. *)
Definition runC : FollowupRun :=
  mkFollowupRun (js " also run the tests ") (Some (js "m-3")) None 5000
    (Some (js "telegram")) (Some (js "123")) None (Some (ThreadNum 7))
    (Some mainContext).

Definition resumeEntry : Sessions.SessionEntry :=
  Sessions.mkSessionEntry Sessions.ModeResume None (Some (js "0f3c9a1e-77aa"))
    (Some (js "/srv/api")) None (js "2026-01-01T00:00:00.000Z").

Definition liveTmux (name : jsstring) : bool := true.
Definition someScreen (name : jsstring) : jsstring := js "  ❯ ready  ".
Definition echoTmux (name message : jsstring) : Tmux.TmuxRunResult :=
  Tmux.mkTmuxRunResult true (js "done: " ++ message) None.

(** A pane that shows the prompt, unchanged from the first poll on. *)
Definition idlePane : jsstring := js "answer" ++ [10%N] ++ js "❯ ".

Definition steadyEnv : TmuxWait.TmuxEnv :=
  TmuxWait.mkTmuxEnv true (js "❯ ") (fun _ => idlePane) 1000000
    (fun _ => 0) (fun _ => 0).


Definition failedSpawn (r : ResumeRunner.SpawnRequest) : ResumeRunner.SpawnResult :=
  ResumeRunner.mkSpawnResult None (Some 2) (Some []) (Some (js "  "))%Z.

Definition okSpawn (r : ResumeRunner.SpawnRequest) : ResumeRunner.SpawnResult :=
  ResumeRunner.mkSpawnResult None (Some 0) (Some (js " hello ")) None.

End Examples2.
(** ** Properties of the deduplicator and of the enqueue orchestrator *)

Module JsStringFacts.

Lemma trimStart_head s c r :
  trimStart s = c :: r -> isWhiteSpace c = false.
Proof.
  induction s as [|a s IH]; simpl; [discriminate|].
  destruct (isWhiteSpace a) eqn:Ha; [exact IH|].
  intros E. injection E as -> _. exact Ha.
Qed.

Lemma truthy_Some o : truthy o = true -> exists s, o = Some s /\ s <> [].
Proof.
  destruct o as [[|c r]|]; simpl; try discriminate.
  intros _. exists (c :: r). split; [reflexivity|discriminate].
Qed.

Lemma truthy_nonempty s : s <> [] -> truthy (Some s) = true.
Proof. destruct s; [congruence|reflexivity]. Qed.

End JsStringFacts.
Export JsStringFacts.

Module QueueFacts.
Import Queue.

Lemma hasSameRouting_spec run item :
  hasSameRouting run item = true <-> sameRouting item run.
Proof.
  unfold hasSameRouting, sameRouting.
  rewrite !andb_true_iff, !bool_decide_eq_true. tauto.
Qed.

Lemma hasSameRouting_other_to run item :
  originatingTo item <> originatingTo run -> hasSameRouting run item = false.
Proof.
  intros Hne. apply not_true_is_false. rewrite hasSameRouting_spec.
  intros (_ & Hto & _). contradiction.
Qed.

(** Under mode "message-id" a candidate with a non-empty trimmed id is a
    duplicate exactly when some queued item has the same trimmed id and the
    same routing identity. *)
Lemma isRunAlreadyQueued_message_id run items fallback m :
  trim <$> messageId run = Some m -> m <> [] ->
  isRunAlreadyQueued run items fallback = true <->
  exists item, In item items /\ trim <$> messageId item = Some m
               /\ sameRouting item run.
Proof.
  intros Hm Hne. unfold isRunAlreadyQueued.
  rewrite Hm, (truthy_nonempty m Hne), existsb_exists.
  split.
  - intros (item & Hin & Hb). apply andb_true_iff in Hb as [Hid Hr].
    apply bool_decide_eq_true in Hid. apply hasSameRouting_spec in Hr. eauto.
  - intros (item & Hin & Hid & Hr). exists item. split; [assumption|].
    apply andb_true_iff. split.
    + apply bool_decide_eq_true. assumption.
    + apply hasSameRouting_spec. assumption.
Qed.

(** Without a usable id and without the prompt fallback nothing is a
    duplicate. *)
Lemma isRunAlreadyQueued_no_id run items :
  truthy (trim <$> messageId run) = false ->
  isRunAlreadyQueued run items false = false.
Proof. intros H. unfold isRunAlreadyQueued. rewrite H. reflexivity. Qed.

(** An item whose [originatingTo] differs from the candidate's never makes
    the candidate a duplicate. *)
Lemma isRunAlreadyQueued_app_other_to run items other fallback :
  originatingTo other <> originatingTo run ->
  isRunAlreadyQueued run (items ++ [other]) fallback
  = isRunAlreadyQueued run items fallback.
Proof.
  intros Hne. unfold isRunAlreadyQueued.
  rewrite !existsb_app. simpl.
  rewrite (hasSameRouting_other_to run other Hne).
  rewrite !andb_false_r, !orb_false_r. reflexivity.
Qed.

(** Removing items never turns a candidate into a duplicate. *)
Lemma isRunAlreadyQueued_incl run items items' fallback :
  (forall x, In x items' -> In x items) ->
  isRunAlreadyQueued run items fallback = false ->
  isRunAlreadyQueued run items' fallback = false.
Proof.
  intros Hincl. unfold isRunAlreadyQueued.
  assert (Hmono : forall f, existsb f items = false -> existsb f items' = false).
  { intros f Hf. apply not_true_is_false. intros Ht.
    apply existsb_exists in Ht as (x & Hx & Hfx).
    assert (existsb f items = true) by (apply existsb_exists; eauto).
    congruence. }
  destruct (truthy _); [apply Hmono|].
  destruct (negb fallback); [reflexivity|apply Hmono].
Qed.

Section Orchestrator.

Variable policy : DropPolicy.

(** With deduplication disabled nothing is skipped. *)
Lemma dedupe_none_never_skips r its :
  shouldSkipQueueItem r its (dedupeOf DedupeNone) = false.
Proof. reflexivity. Qed.

Lemma enqueue_skipped q r dedupeMode now stamp :
  shouldSkipQueueItem r (items q) (dedupeOf dedupeMode) = true ->
  enqueueFollowupRun policy q r dedupeMode now stamp
  = mkEnqueueResult false q None.
Proof. intros H. unfold enqueueFollowupRun. rewrite H. reflexivity. Qed.

(** Past deduplication the returned boolean is the drop policy's verdict. *)
Lemma enqueue_not_skipped q r dedupeMode now stamp :
  shouldSkipQueueItem r (items q) (dedupeOf dedupeMode) = false ->
  enqueued (enqueueFollowupRun policy q r dedupeMode now stamp)
  = fst (policy summarize (touched q r now)).
Proof.
  intros H. unfold enqueueFollowupRun, touched. rewrite H.
  destruct (policy summarize _) as [[|] q']; simpl; [|reflexivity].
  destruct (draining q'); [|reflexivity].
  destruct (truthy _); reflexivity.
Qed.

(** The queue after a call: untouched when skipped, else what the drop policy
    left, with the run pushed at the tail when it was accepted. *)
Lemma enqueue_queueAfter q r dedupeMode now stamp :
  queueAfter (enqueueFollowupRun policy q r dedupeMode now stamp)
  = if shouldSkipQueueItem r (items q) (dedupeOf dedupeMode) then q
    else let '(ok, q') := policy summarize (touched q r now) in
         if ok then set_items (items q' ++ [r]) q' else q'.
Proof.
  unfold enqueueFollowupRun, touched.
  destruct (shouldSkipQueueItem _ _ _); [reflexivity|].
  destruct (policy summarize _) as [[|] q']; simpl; [|reflexivity].
  destruct (draining q'); [|reflexivity].
  destruct (truthy _); reflexivity.
Qed.

(** An accepted run sits at the tail of the queue. *)
Lemma enqueue_accepted_tail q r dedupeMode now stamp :
  enqueued (enqueueFollowupRun policy q r dedupeMode now stamp) = true ->
  exists front,
    items (queueAfter (enqueueFollowupRun policy q r dedupeMode now stamp))
    = front ++ [r].
Proof.
  rewrite enqueue_queueAfter.
  destruct (shouldSkipQueueItem r (items q) (dedupeOf dedupeMode)) eqn:Hs.
  - rewrite (enqueue_skipped _ _ _ _ _ Hs). discriminate.
  - rewrite (enqueue_not_skipped _ _ _ _ _ Hs).
    destruct (policy summarize _) as [ok q']; simpl. intros ->.
    exists (items q'). reflexivity.
Qed.

(** The shared core of dedup-identity: a routing-identical queued item with
    the same trimmed id makes the call a no-op returning [false]. *)
Lemma enqueue_duplicate_noop q r1 r2 m now stamp :
  sameRouting r1 r2 ->
  trim <$> messageId r1 = Some m ->
  trim <$> messageId r2 = Some m ->
  m <> [] ->
  In r1 (items q) ->
  enqueueFollowupRun policy q r2 DedupeMessageId now stamp
  = mkEnqueueResult false q None.
Proof.
  intros Hr H1 H2 Hne Hin. apply enqueue_skipped. simpl.
  apply (isRunAlreadyQueued_message_id r2 (items q) false m H2 Hne).
  exists r1. auto.
Qed.

End Orchestrator.

End QueueFacts.

(** ** The claims about the enqueue orchestrator *)

Module QueueClaims.
Import Queue QueueFacts Examples.

Lemma fifoDropPolicy_frame : DropPolicyFrame fifoDropPolicy.
Proof.
  split; intros s q; unfold fifoDropPolicy;
    destruct ((0 <? cap q) && (cap q <=? Z.of_nat (length (items q))));
    try reflexivity; try (intros x Hx; exact Hx).
  - destruct (items q); reflexivity.
  - destruct (items q); reflexivity.
  - destruct (items q) as [|oldest rest] eqn:E; simpl; intros x Hx.
    + rewrite E in Hx. exact Hx.
    + right. exact Hx.
Qed.

Lemma rejectNewDropPolicy_frame : DropPolicyFrame rejectNewDropPolicy.
Proof.
  split; intros s q; unfold rejectNewDropPolicy;
    destruct ((0 <? cap q) && (cap q <=? Z.of_nat (length (items q))));
    simpl; auto.
Qed.

(** C1 (dedup identity). If a queued item and the candidate agree on the four
    originating fields and have the same non-empty trimmed messageId, then
    enqueueFollowupRun under dedupe mode "message-id" returns false, issues no
    inbox write and leaves the queue, its items sequence in particular, as it
    was. This holds for every drop policy. *)
Theorem dedup_identity (policy : DropPolicy) (q : FollowupQueue)
    (r1 r2 : FollowupRun) (m : jsstring) (now stamp : Z) :
  sameRouting r1 r2 ->
  trim <$> messageId r1 = Some m ->
  trim <$> messageId r2 = Some m ->
  m <> [] ->
  In r1 (items q) ->
  enqueued (enqueueFollowupRun policy q r2 DedupeMessageId now stamp) = false
  /\ items (queueAfter (enqueueFollowupRun policy q r2 DedupeMessageId now stamp))
     = items q
  /\ enqueueFollowupRun policy q r2 DedupeMessageId now stamp
     = mkEnqueueResult false q None.
Proof.
  intros Hr H1 H2 Hne Hin.
  rewrite (enqueue_duplicate_noop policy q r1 r2 m now stamp Hr H1 H2 Hne Hin).
  simpl. auto.
Qed.

Lemma dedup_identity_witness :
  enqueued (enqueueFollowupRun fifoDropPolicy queueWithA runA_retry
              DedupeMessageId 1500 1500) = false
  /\ items (queueAfter (enqueueFollowupRun fifoDropPolicy queueWithA runA_retry
                          DedupeMessageId 1500 1500)) = [runA]
  /\ enqueueFollowupRun fifoDropPolicy queueWithA runA_retry
       DedupeMessageId 1500 1500
     = mkEnqueueResult false queueWithA None.
Proof.
  apply (dedup_identity fifoDropPolicy queueWithA runA runA_retry (js "m-1")).
  - repeat split.
  - reflexivity.
  - reflexivity.
  - discriminate.
  - simpl. left. reflexivity.
Defined.

(** The same in two consecutive calls: once the first run has been accepted,
    the retry is refused and the queue is left as the first call left it. *)
Lemma dedup_identity_after_accept (policy : DropPolicy) (q : FollowupQueue)
    (r1 r2 : FollowupRun) (m : jsstring) (mode1 : QueueDedupeMode)
    (now1 stamp1 now2 stamp2 : Z) :
  sameRouting r1 r2 ->
  trim <$> messageId r1 = Some m ->
  trim <$> messageId r2 = Some m ->
  m <> [] ->
  enqueued (enqueueFollowupRun policy q r1 mode1 now1 stamp1) = true ->
  enqueueFollowupRun policy
    (queueAfter (enqueueFollowupRun policy q r1 mode1 now1 stamp1))
    r2 DedupeMessageId now2 stamp2
  = mkEnqueueResult false
      (queueAfter (enqueueFollowupRun policy q r1 mode1 now1 stamp1)) None.
Proof.
  intros Hr H1 H2 Hne Hacc.
  destruct (enqueue_accepted_tail policy q r1 mode1 now1 stamp1 Hacc)
    as [front Hfront].
  apply (enqueue_duplicate_noop policy _ r1 r2 m); try assumption.
  rewrite Hfront. apply in_or_app. right. left. reflexivity.
Qed.

Example dedup_identity_two_calls :
  let first := enqueueFollowupRun fifoDropPolicy emptyQueue runA
                 DedupeMessageId 1000 1000 in
  let second := enqueueFollowupRun fifoDropPolicy (queueAfter first) runA_retry
                  DedupeMessageId 1500 1500 in
  enqueued first = true /\ enqueued second = false
  /\ items (queueAfter second) = [runA].
Proof. vm_compute. auto. Qed.

(** C2 (dedup isolation by routing). Two runs whose originatingTo differ are
    never duplicates of one another under dedupe mode "message-id", whatever
    their messageIds are (equal and non-empty in particular). On a queue that
    holds no duplicate of either, enqueueing the first and then the second
    passes deduplication both times: each call returns the drop policy's
    verdict, and a run the policy accepts is pushed at the tail of what the
    policy left. So the first run is queued when the second is checked, is
    not taken for its duplicate, and both runs are accepted whenever the
    policy accepts them. *)
Theorem dedup_isolation_by_routing (policy : DropPolicy) (q : FollowupQueue)
    (r1 r2 : FollowupRun) (now1 stamp1 now2 stamp2 : Z) :
  DropPolicyFrame policy ->
  originatingTo r1 <> originatingTo r2 ->
  isRunAlreadyQueued r1 (items q) false = false ->
  isRunAlreadyQueued r2 (items q) false = false ->
  enqueued (enqueueFollowupRun policy q r1 DedupeMessageId now1 stamp1)
  = fst (policy summarize (touched q r1 now1))
  /\ items (queueAfter
              (enqueueFollowupRun policy q r1 DedupeMessageId now1 stamp1))
     = (if fst (policy summarize (touched q r1 now1))
        then items (snd (policy summarize (touched q r1 now1))) ++ [r1]
        else items (snd (policy summarize (touched q r1 now1))))
  /\ shouldSkipQueueItem r2
       (items (queueAfter
                 (enqueueFollowupRun policy q r1 DedupeMessageId now1 stamp1)))
       (dedupeOf DedupeMessageId) = false
  /\ enqueued
       (enqueueFollowupRun policy
          (queueAfter (enqueueFollowupRun policy q r1 DedupeMessageId now1 stamp1))
          r2 DedupeMessageId now2 stamp2)
     = fst (policy summarize
              (touched (queueAfter
                          (enqueueFollowupRun policy q r1 DedupeMessageId now1 stamp1))
                       r2 now2))
  /\ items
       (queueAfter
          (enqueueFollowupRun policy
             (queueAfter (enqueueFollowupRun policy q r1 DedupeMessageId now1 stamp1))
             r2 DedupeMessageId now2 stamp2))
     = (if fst (policy summarize
                  (touched (queueAfter
                              (enqueueFollowupRun policy q r1 DedupeMessageId
                                 now1 stamp1))
                           r2 now2))
        then items (snd (policy summarize
                           (touched (queueAfter
                                       (enqueueFollowupRun policy q r1
                                          DedupeMessageId now1 stamp1))
                                    r2 now2))) ++ [r2]
        else items (snd (policy summarize
                           (touched (queueAfter
                                       (enqueueFollowupRun policy q r1
                                          DedupeMessageId now1 stamp1))
                                    r2 now2)))).
Proof.
  intros F Hto Hq1 Hq2.
  assert (Hitems : forall q0 r now stamp,
    shouldSkipQueueItem r (items q0) (dedupeOf DedupeMessageId) = false ->
    items (queueAfter (enqueueFollowupRun policy q0 r DedupeMessageId now stamp))
    = (if fst (policy summarize (touched q0 r now))
       then items (snd (policy summarize (touched q0 r now))) ++ [r]
       else items (snd (policy summarize (touched q0 r now))))).
  { intros q0 r now stamp Hs. rewrite enqueue_queueAfter, Hs.
    destruct (policy summarize (touched q0 r now)) as [[|] q']; reflexivity. }
  assert (Hskip2 : shouldSkipQueueItem r2
       (items (queueAfter
                 (enqueueFollowupRun policy q r1 DedupeMessageId now1 stamp1)))
       (dedupeOf DedupeMessageId) = false).
  { rewrite (Hitems q r1 now1 stamp1 Hq1). simpl.
    pose proof (frame_items policy F summarize (touched q r1 now1)) as Hsub.
    destruct (policy summarize (touched q r1 now1)) as [ok q'].
    simpl in Hsub.
    assert (Hq' : isRunAlreadyQueued r2 (items q') false = false)
      by (apply (isRunAlreadyQueued_incl r2 (items q)); assumption).
    destruct ok; simpl; [|exact Hq'].
    rewrite isRunAlreadyQueued_app_other_to by assumption. exact Hq'. }
  split; [|split; [|split; [|split]]].
  - apply enqueue_not_skipped. exact Hq1.
  - apply Hitems. exact Hq1.
  - exact Hskip2.
  - apply enqueue_not_skipped. exact Hskip2.
  - apply Hitems. exact Hskip2.
Qed.

(** On a fresh queue both runs are accepted and queued in order. *)
Lemma dedup_isolation_by_routing_witness :
  enqueued (enqueueFollowupRun fifoDropPolicy emptyQueue runA
              DedupeMessageId 1000 1000) = true
  /\ items (queueAfter (enqueueFollowupRun fifoDropPolicy emptyQueue runA
                          DedupeMessageId 1000 1000)) = [runA]
  /\ enqueued
       (enqueueFollowupRun fifoDropPolicy
          (queueAfter (enqueueFollowupRun fifoDropPolicy emptyQueue runA
                         DedupeMessageId 1000 1000))
          runB DedupeMessageId 2000 2000) = true
  /\ items
       (queueAfter
          (enqueueFollowupRun fifoDropPolicy
             (queueAfter (enqueueFollowupRun fifoDropPolicy emptyQueue runA
                            DedupeMessageId 1000 1000))
             runB DedupeMessageId 2000 2000)) = [runA; runB].
Proof.
  destruct (dedup_isolation_by_routing fifoDropPolicy emptyQueue runA runB
              1000 1000 2000 2000 fifoDropPolicy_frame)
    as (H1 & H2 & _ & H4 & H5).
  - discriminate.
  - reflexivity.
  - reflexivity.
  - rewrite H1, H2, H4, H5. repeat split.
Defined.

Example dedup_isolation_items :
  items (queueAfter
           (enqueueFollowupRun fifoDropPolicy
              (queueAfter (enqueueFollowupRun fifoDropPolicy emptyQueue runA
                             DedupeMessageId 1000 1000))
              runB DedupeMessageId 2000 2000))
  = [runA; runB].
Proof. reflexivity. Qed.

(** C6 (enqueue bookkeeping). A candidate that passes deduplication leaves
    queue.lastEnqueuedAt at the current time and queue.lastRun at the run's
    context, whether the drop policy then accepts it or rejects it (and the
    call returns false); a candidate rejected by deduplication makes the call
    return false and leaves both fields as they were. *)
Theorem last_enqueue_recorded (policy : DropPolicy) (q : FollowupQueue)
    (r : FollowupRun) (dedupeMode : QueueDedupeMode) (now stamp : Z) :
  DropPolicyFrame policy ->
  (shouldSkipQueueItem r (items q) (dedupeOf dedupeMode) = false ->
     lastEnqueuedAt (queueAfter (enqueueFollowupRun policy q r dedupeMode now stamp))
     = now
     /\ lastRun (queueAfter (enqueueFollowupRun policy q r dedupeMode now stamp))
        = run r)
  /\ (shouldSkipQueueItem r (items q) (dedupeOf dedupeMode) = true ->
        enqueued (enqueueFollowupRun policy q r dedupeMode now stamp) = false
        /\ lastEnqueuedAt
             (queueAfter (enqueueFollowupRun policy q r dedupeMode now stamp))
           = lastEnqueuedAt q
        /\ lastRun (queueAfter (enqueueFollowupRun policy q r dedupeMode now stamp))
           = lastRun q).
Proof.
  intros F. split; intros Hs.
  - rewrite enqueue_queueAfter, Hs.
    pose proof (frame_lastEnqueuedAt policy F summarize (touched q r now)) as Ht.
    pose proof (frame_lastRun policy F summarize (touched q r now)) as Hl.
    destruct (policy summarize (touched q r now)) as [ok q'].
    simpl in Ht, Hl. destruct ok; simpl; auto.
  - rewrite (enqueue_skipped policy q r dedupeMode now stamp Hs). simpl. auto.
Qed.

(** The drop policy rejects [runB] on the full queue, and the bookkeeping is
    updated all the same. *)
Lemma last_enqueue_recorded_witness :
  enqueued (enqueueFollowupRun rejectNewDropPolicy fullQueue runB
              DedupeMessageId 5000 5000) = false
  /\ lastEnqueuedAt (queueAfter (enqueueFollowupRun rejectNewDropPolicy fullQueue
                                   runB DedupeMessageId 5000 5000)) = 5000
  /\ lastRun (queueAfter (enqueueFollowupRun rejectNewDropPolicy fullQueue
                            runB DedupeMessageId 5000 5000)) = run runB.
Proof.
  split; [reflexivity|].
  apply (last_enqueue_recorded rejectNewDropPolicy fullQueue runB
           DedupeMessageId 5000 5000 rejectNewDropPolicy_frame).
  reflexivity.
Defined.

Example last_enqueue_untouched_on_duplicate :
  let res := enqueueFollowupRun rejectNewDropPolicy fullQueue runA_retry
               DedupeMessageId 5000 5000 in
  enqueued res = false
  /\ lastEnqueuedAt (queueAfter res) = 1000
  /\ lastRun (queueAfter res) = Some mainContext.
Proof. vm_compute. auto. Qed.

(** The inbox side-write of an accepted run on a draining queue goes to the
    workspace of the run's own context. *)
Lemma inbox_write_own_workspace (policy : DropPolicy) (q : FollowupQueue)
    (r : FollowupRun) (dedupeMode : QueueDedupeMode) (now stamp : Z)
    (dir : jsstring) :
  run r ≫= workspaceDir = Some dir -> dir <> [] ->
  enqueued (enqueueFollowupRun policy q r dedupeMode now stamp) = true ->
  draining (snd (policy summarize (touched q r now))) = true ->
  inbox (enqueueFollowupRun policy q r dedupeMode now stamp)
  = Some (mkInboxWrite dir stamp (trim (prompt r))).
Proof.
  intros Hdir Hne. unfold enqueueFollowupRun, touched.
  destruct (shouldSkipQueueItem _ _ _); [discriminate|].
  destruct (policy summarize _) as [[|] q']; simpl; [|discriminate].
  intros _ ->. rewrite Hdir. unfold orElse.
  destruct dir as [|c dir']; [congruence|reflexivity].
Qed.

(** C7 (inbox fallback), as the code has it. queue.lastRun is overwritten
    with the current run's context before the side-write reads it, so the
    fallback reads the same context again: a run whose own context carries no
    workspaceDir never causes an inbox write, whatever workspace an earlier
    enqueue recorded in lastRun. *)
Theorem inbox_fallback_reads_current_run (policy : DropPolicy)
    (q : FollowupQueue) (r : FollowupRun) (dedupeMode : QueueDedupeMode)
    (now stamp : Z) :
  DropPolicyFrame policy ->
  truthy (run r ≫= workspaceDir) = false ->
  inbox (enqueueFollowupRun policy q r dedupeMode now stamp) = None.
Proof.
  intros F Hws. unfold enqueueFollowupRun.
  destruct (shouldSkipQueueItem _ _ _); [reflexivity|].
  pose proof (frame_lastRun policy F summarize
                (set_lastRun (run r) (set_lastEnqueuedAt now q))) as Hl.
  destruct (policy summarize _) as [[|] q']; simpl in *; [|reflexivity].
  destruct (draining q'); [|reflexivity].
  rewrite Hl. unfold orElse. rewrite !Hws. reflexivity.
Qed.

(** The draining queue remembers a run with a workspace; the sparse run is
    accepted, and nothing is written to that workspace's inbox. *)
Lemma inbox_fallback_reads_current_run_witness :
  lastRun drainingQueue ≫= workspaceDir = Some (js "/home/dim/ws")
  /\ draining drainingQueue = true
  /\ enqueued (enqueueFollowupRun fifoDropPolicy drainingQueue runSparse
                 DedupeMessageId 3000 3000) = true
  /\ inbox (enqueueFollowupRun fifoDropPolicy drainingQueue runSparse
              DedupeMessageId 3000 3000) = None.
Proof.
  split; [reflexivity|]. split; [reflexivity|]. split; [reflexivity|].
  apply (inbox_fallback_reads_current_run fifoDropPolicy drainingQueue runSparse
           DedupeMessageId 3000 3000 fifoDropPolicy_frame).
  reflexivity.
Defined.

End QueueClaims.

(** ** The claims about the restart handoff *)

Module HandoffClaims.
Import Queue Handoff HandoffSpec Examples.

Lemma HANDOFF_MAX_AGE_MS_value : HANDOFF_MAX_AGE_MS = 300000.
Proof. reflexivity. Qed.

(** [Boolean(item.originatingTo)] holds exactly of the items that carry a
    non-empty [originatingTo]. *)
Lemma truthy_carries item :
  truthy (originatingTo item) = carriesOriginatingTo item.
Proof.
  unfold carriesOriginatingTo.
  destruct (originatingTo item) as [[|c to]|]; reflexivity.
Qed.

Lemma serializableItems_contribution key queue :
  serializableItems queue = hq_items (contribution (key, queue)).
Proof.
  unfold serializableItems, contribution. simpl. f_equal.
  apply filter_ext. intros item. apply truthy_carries.
Qed.

Lemma length_zero_nil {A} (l : list A) :
  (length l =? 0)%nat = bool_decide (l = []).
Proof. destruct l; reflexivity. Qed.

(** One turn of the loop pushes the queue's contribution unless it is
    empty. *)
Lemma saveStep_contribution queues entry :
  saveStep queues entry
  = queues ++ List.filter (fun hq => negb (bool_decide (hq_items hq = [])))
                [contribution entry].
Proof.
  destruct entry as [key queue]. unfold saveStep.
  rewrite (serializableItems_contribution key queue).
  destruct (items queue) as [|item rest] eqn:Hitems.
  - simpl. unfold contribution at 1. simpl. rewrite Hitems. simpl.
    rewrite app_nil_r. reflexivity.
  - cbn [length Nat.eqb]. rewrite length_zero_nil. cbn [List.filter].
    destruct (bool_decide (hq_items (contribution (key, queue)) = [])); simpl.
    + rewrite app_nil_r. reflexivity.
    + reflexivity.
Qed.

(** The loop of [saveRestartHandoff] computes the queues the specification
    describes, behind whatever was accumulated. *)
Lemma fold_saveStep FOLLOWUP_QUEUES : forall queues,
  fold_left saveStep FOLLOWUP_QUEUES queues
  = queues ++ persistedQueues FOLLOWUP_QUEUES.
Proof.
  induction FOLLOWUP_QUEUES as [|entry rest IH]; intros queues.
  - simpl. rewrite app_nil_r. reflexivity.
  - cbn [fold_left]. rewrite IH, saveStep_contribution.
    unfold persistedQueues. cbn [List.map List.filter].
    rewrite <- app_assoc. f_equal.
    destruct (negb (bool_decide (hq_items (contribution entry) = [])));
      reflexivity.
Qed.

(** Every persisted item is the projection of a queue item with a non-empty
    [originatingTo], and no persisted queue is empty. *)
Lemma persistedQueues_sound FOLLOWUP_QUEUES hq :
  In hq (persistedQueues FOLLOWUP_QUEUES) ->
  hq_items hq <> []
  /\ exists queue, In (key hq, queue) FOLLOWUP_QUEUES
       /\ hq_mode hq = mode queue
       /\ hq_items hq
          = List.map toHandoffItem
              (List.filter carriesOriginatingTo (items queue)).
Proof.
  unfold persistedQueues. rewrite filter_In, in_map_iff.
  intros [(entry & <- & Hin) Hne]. split.
  - apply negb_true_iff, bool_decide_eq_false in Hne. exact Hne.
  - exists (snd entry). destruct entry as [k queue]. simpl. auto.
Qed.

(** The projection the code builds is the one the specification lists. *)
Lemma toHandoffItem_described item : toHandoffItem item = describedItem item.
Proof. reflexivity. Qed.

Lemma persistedQueues_described FOLLOWUP_QUEUES :
  persistedQueues FOLLOWUP_QUEUES = describedQueues FOLLOWUP_QUEUES.
Proof.
  unfold persistedQueues, describedQueues.
  rewrite (map_ext contribution
             (fun entry : jsstring * FollowupQueue =>
                {| key := fst entry;
                   hq_mode := mode (snd entry);
                   hq_items :=
                     List.map describedItem
                       (List.filter hasDestination (items (snd entry))) |})).
  - apply filter_ext. intros hq. destruct (hq_items hq); reflexivity.
  - intros [k queue]. unfold contribution. simpl. f_equal.
    rewrite (filter_ext carriesOriginatingTo hasDestination).
    + apply map_ext. intros item. apply toHandoffItem_described.
    + intros item. unfold carriesOriginatingTo, hasDestination.
      destruct (originatingTo item) as [[|c to]|]; reflexivity.
Qed.

(** C5 (what the handoff persists). After saveRestartHandoff the handoff
    file holds exactly the snapshot the specification describes: version 1,
    the current time, and for every queue, in order, the projections (prompt,
    messageId, summaryLine, enqueuedAt, the four originating fields, the
    run's sessionKey) of its items that carry a non-empty originatingTo,
    queues that contribute nothing (no items, or none with originatingTo)
    being left out. When no queue contributes, no file is written and the
    file system is left as it was; a write that throws is caught and leaves
    it as it was too. *)
Theorem save_persists_routable_items
    (FOLLOWUP_QUEUES : list (jsstring * FollowupQueue)) (now : Z) (fs : Fs) :
  saveRestartHandoff FOLLOWUP_QUEUES now fs
  = match describedQueues FOLLOWUP_QUEUES with
    | [] => fs
    | qs =>
        if writeFails fs then fs
        else mkFs (Some (Snapshot (mkHandoffData now 1 qs)))
                  (readFails fs) (unlinkFails fs) (writeFails fs)
    end.
Proof.
  unfold saveRestartHandoff. rewrite fold_saveStep, persistedQueues_described.
  simpl.
  destruct (describedQueues FOLLOWUP_QUEUES) as [|hq qs]; [reflexivity|].
  cbn [length Nat.eqb]. unfold tryWriteHandoff.
  destruct (writeFails fs) eqn:Hw; [reflexivity|].
  unfold set_handoffFile. rewrite Hw. reflexivity.
Qed.

(** Every described item comes from a queued item with a non-empty
    originatingTo, which it carries. *)
Lemma describedQueues_routable FOLLOWUP_QUEUES hq hi :
  In hq (describedQueues FOLLOWUP_QUEUES) -> In hi (hq_items hq) ->
  truthy (hi_originatingTo hi) = true.
Proof.
  unfold describedQueues. rewrite filter_In, in_map_iff.
  intros [((k & queue) & <- & _) _]. simpl. rewrite in_map_iff.
  intros (item & <- & Hitem). apply filter_In in Hitem as [_ Hto].
  exact Hto.
Qed.

Example save_mixed_queues :
  handoffFile (saveRestartHandoff allQueues 5000 cleanFs)
  = Some (Snapshot
            (mkHandoffData 5000 1
               [mkHandoffQueue (js "agent:main") (js "followup")
                  [toHandoffItem runA]])).
Proof. reflexivity. Qed.

Example save_nothing_to_persist :
  saveRestartHandoff [(js "agent:idle", emptyQueue);
                      (js "agent:cron", internalQueue)] 5000 cleanFs
  = cleanFs.
Proof. reflexivity. Qed.

(** Round trip: what was saved is loaded once, and only once. *)
Example save_load_round_trip :
  let saved := saveRestartHandoff allQueues 5000 cleanFs in
  let first := loadAndClearRestartHandoff 6000 saved in
  let second := loadAndClearRestartHandoff 6001 (snd first) in
  (queues <$> fst first)
  = Some [mkHandoffQueue (js "agent:main") (js "followup") [toHandoffItem runA]]
  /\ fst second = None.
Proof. vm_compute. auto. Qed.

(** C3 (delete before parse), amended. When the handoff file exists and can
    be read and unlinked, loadAndClearRestartHandoff removes it before the
    content is parsed: whatever the first call returns (a valid snapshot,
    null for malformed content, null for a stale snapshot), the file is gone
    afterwards and an immediately following call returns null. *)
Theorem load_clears_before_parse (now1 now2 : Z) (fs : Fs) (raw : FileContent) :
  handoffFile fs = Some raw ->
  readFails fs = false ->
  unlinkFails fs = false ->
  fst (loadAndClearRestartHandoff now1 fs) = loaded now1 raw
  /\ handoffFile (snd (loadAndClearRestartHandoff now1 fs)) = None
  /\ fst (loadAndClearRestartHandoff now2
            (snd (loadAndClearRestartHandoff now1 fs))) = None.
Proof.
  intros Hfile Hread Hunlink.
  assert (Hgone : handoffFile (snd (loadAndClearRestartHandoff now1 fs)) = None).
  { unfold loadAndClearRestartHandoff, tryUnlinkHandoff.
    rewrite Hfile, Hread, Hunlink.
    destruct (JSON_parse raw) as [data|]; [|reflexivity].
    destruct (HANDOFF_MAX_AGE_MS <? now1 - savedAt data); reflexivity. }
  split; [|split].
  - unfold loadAndClearRestartHandoff, loaded. rewrite Hfile, Hread.
    destruct (JSON_parse raw) as [data|]; [|reflexivity].
    destruct (HANDOFF_MAX_AGE_MS <? now1 - savedAt data); reflexivity.
  - exact Hgone.
  - unfold loadAndClearRestartHandoff at 1. rewrite Hgone. reflexivity.
Qed.

Lemma load_clears_before_parse_witness :
  fst (loadAndClearRestartHandoff 2000 (fsWith (Malformed (js "{ oops"))))
  = None
  /\ handoffFile
       (snd (loadAndClearRestartHandoff 2000 (fsWith (Malformed (js "{ oops")))))
     = None
  /\ fst (loadAndClearRestartHandoff 2001
            (snd (loadAndClearRestartHandoff 2000
                    (fsWith (Malformed (js "{ oops")))))) = None.
Proof.
  apply (load_clears_before_parse 2000 2001 (fsWith (Malformed (js "{ oops")))
           (Malformed (js "{ oops"))); reflexivity.
Defined.

(** C3 as stated fails: unlinkSync may throw, which the source catches and
    ignores. The file then survives the first call, and a second call
    returns the same fresh snapshot again. *)
Lemma load_twice_when_unlink_fails :
  ~ (forall (now1 now2 : Z) (fs : Fs),
       is_Some (handoffFile fs) ->
       fst (loadAndClearRestartHandoff now2
              (snd (loadAndClearRestartHandoff now1 fs))) = None).
Proof.
  intros H.
  specialize (H 2000 2001 (stickyFs (Snapshot (snapshotAt 1000)))).
  assert (Hex : is_Some (handoffFile (stickyFs (Snapshot (snapshotAt 1000)))))
    by (eexists; reflexivity).
  specialize (H Hex). vm_compute in H. discriminate H.
Qed.

(** C4 (staleness guard). A snapshot whose savedAt lies more than 300000 ms
    (5 minutes) before the current time is never returned:
    loadAndClearRestartHandoff returns null although the content parses. *)
Theorem load_rejects_stale (now : Z) (fs : Fs) (data : HandoffData) :
  handoffFile fs = Some (Snapshot data) ->
  300000 < now - savedAt data ->
  JSON_parse (Snapshot data) = Some data
  /\ fst (loadAndClearRestartHandoff now fs) = None.
Proof.
  intros Hfile Hstale. split; [reflexivity|].
  unfold loadAndClearRestartHandoff. rewrite Hfile.
  destruct (readFails fs); [reflexivity|]. simpl.
  rewrite HANDOFF_MAX_AGE_MS_value.
  destruct (Z.ltb_spec 300000 (now - savedAt data)); [reflexivity|lia].
Qed.

(** Saved ten minutes before the load. *)
Lemma load_rejects_stale_witness :
  JSON_parse (Snapshot (snapshotAt 1000)) = Some (snapshotAt 1000)
  /\ fst (loadAndClearRestartHandoff 601000 (fsWith (Snapshot (snapshotAt 1000))))
     = None.
Proof.
  apply (load_rejects_stale 601000 (fsWith (Snapshot (snapshotAt 1000)))
           (snapshotAt 1000)).
  - reflexivity.
  - simpl. lia.
Defined.

(** At exactly five minutes the snapshot is still replayed. *)
Example load_accepts_at_threshold :
  fst (loadAndClearRestartHandoff 301000 (fsWith (Snapshot (snapshotAt 1000))))
  = Some (snapshotAt 1000).
Proof. reflexivity. Qed.

End HandoffClaims.

(** ** The claims about the session proxy *)

Module SessionClaims.
Import Sessions Examples.

Section Proxy.

Variable toLowerCase : jsstring -> jsstring.
Variable checkTmuxSession : jsstring -> bool.
Variable captureTmuxScreen : jsstring -> jsstring.
Variable sendToTmux : jsstring -> jsstring -> Tmux.TmuxRunResult.
Variable runWithResume : jsstring -> jsstring -> jsstring -> Resume.ResumeRunResult.

Let proxy := tryProxyMessage toLowerCase checkTmuxSession captureTmuxScreen
               sendToTmux runWithResume.




End Proxy.



(** The confirmation names the detached session. *)
Example back_command_response :
  response (fst (tryProxyMessage toLowerCaseBasic noTmux blankScreen deadTmux
                   deadResume chat (js "back") (storeWith tmuxEntry)))
  = Some (js "Вернулся в основную сессию." ++ nl
          ++ js "_(была подключена: tmux:claude-main)_").
Proof. vm_compute. reflexivity. Qed.

(** C10 (incomplete entries fall through). When the stored entry lacks its
    mode-specific fields (mode "tmux" without a tmuxSession, mode "resume"
    without a resumeId or without a cwd; a field that is the empty string
    counts as lacking) and the text is not a back-command, tryProxyMessage
    returns handled: false and leaves the store, the entry included, as it
    was. *)
Theorem incomplete_entry_falls_through
    (toLowerCase : jsstring -> jsstring)
    (checkTmuxSession : jsstring -> bool)
    (captureTmuxScreen : jsstring -> jsstring)
    (sendToTmux : jsstring -> jsstring -> Tmux.TmuxRunResult)
    (runWithResume : jsstring -> jsstring -> jsstring -> Resume.ResumeRunResult)
    (chatId text : jsstring) (store : StateStore) (entry : SessionEntry) :
  store !! chatId = Some entry ->
  isBackCommand toLowerCase text = false ->
  (mode entry = ModeTmux /\ truthy (tmuxSession entry) = false)
  \/ (mode entry = ModeResume
      /\ (truthy (resumeId entry) = false \/ truthy (cwd entry) = false)) ->
  tryProxyMessage toLowerCase checkTmuxSession captureTmuxScreen sendToTmux
    runWithResume chatId text store
  = (mkProxyResult false None, store)
  /\ getSession chatId store = Some entry.
Proof.
  intros Hentry Hback Hmissing. split; [|exact Hentry].
  unfold tryProxyMessage, getSession. rewrite Hentry, Hback.
  destruct Hmissing as [[Hm Hf]|[Hm Hf]]; rewrite Hm.
  - rewrite Hf. reflexivity.
  - simpl. destruct Hf as [Hf|Hf]; rewrite Hf.
    + reflexivity.
    + rewrite andb_false_r. reflexivity.
Qed.

Lemma incomplete_entry_falls_through_witness :
  tryProxyMessage toLowerCaseBasic noTmux blankScreen deadTmux deadResume
    chat (js "run the tests") (storeWith tmuxEntryNoName)
  = (mkProxyResult false None, storeWith tmuxEntryNoName)
  /\ getSession chat (storeWith tmuxEntryNoName) = Some tmuxEntryNoName.
Proof.
  apply (incomplete_entry_falls_through toLowerCaseBasic noTmux blankScreen
           deadTmux deadResume chat (js "run the tests")
           (storeWith tmuxEntryNoName) tmuxEntryNoName).
  - apply lookup_singleton_eq.
  - vm_compute. reflexivity.
  - left. split; reflexivity.
Defined.

Example incomplete_resume_entry_falls_through :
  fst (tryProxyMessage toLowerCaseBasic noTmux blankScreen deadTmux deadResume
         chat (js "run the tests") (storeWith resumeEntryNoCwd))
  = mkProxyResult false None.
Proof. vm_compute. reflexivity. Qed.

End SessionClaims.

(** ** The claims about the tmux driver *)

Module TmuxClaims.
Import Tmux Examples.

(** Two captures with the same lines never diverge: the index stays at its
    initial value. *)
Lemma divergeFrom_same lines : forall i dflt,
  divergeFrom i lines lines dflt = dflt.
Proof.
  induction lines as [|l rest IH]; intros i dflt; simpl; [reflexivity|].
  rewrite bool_decide_eq_true_2 by reflexivity. apply IH.
Qed.

(** The index found is at or after the loop counter it started from, unless
    it is the initial value. *)
Lemma divergeFrom_bound beforeLines : forall afterLines i dflt,
  divergeFrom i beforeLines afterLines dflt = dflt
  \/ (i <= divergeFrom i beforeLines afterLines dflt
      < i + length beforeLines)%nat.
Proof.
  induction beforeLines as [|b bs IH]; intros afterLines i dflt; simpl.
  - left. reflexivity.
  - destruct afterLines as [|a as_]; [left; reflexivity|].
    destruct (bool_decide (b = a)).
    + destruct (IH as_ (S i) dflt) as [->|H]; [left; reflexivity|right; lia].
    + right. lia.
Qed.

(** What the loop computes: either the first index at which both captures
    have a line and the lines differ, all earlier lines being equal; or, when
    the captures agree on their common range, the initial value. *)
Lemma divergeFrom_first beforeLines : forall afterLines i dflt,
  (exists k,
      divergeFrom i beforeLines afterLines dflt = (i + k)%nat
      /\ take k beforeLines = take k afterLines
      /\ (exists b a, beforeLines !! k = Some b /\ afterLines !! k = Some a
                      /\ b <> a))
  \/ (divergeFrom i beforeLines afterLines dflt = dflt
      /\ take (length afterLines) beforeLines
         = take (length beforeLines) afterLines).
Proof.
  induction beforeLines as [|b bs IH]; intros afterLines i dflt; simpl.
  - right. split; [reflexivity|]. rewrite take_nil. reflexivity.
  - destruct afterLines as [|a as_]; simpl.
    + right. split; reflexivity.
    + destruct (decide (b = a)) as [->|Hne].
      * rewrite bool_decide_eq_true_2 by reflexivity.
        destruct (IH as_ (S i) dflt) as [(k & Hk & Htake & Hdiff)|[Hd Htake]].
        -- left. exists (S k). split; [rewrite Hk; lia|].
           split; [simpl; rewrite Htake; reflexivity|exact Hdiff].
        -- right. split; [exact Hd|]. rewrite Htake. reflexivity.
      * rewrite bool_decide_eq_false_2 by exact Hne.
        left. exists 0%nat. split; [lia|]. split; [reflexivity|].
        exists b, a. auto.
Qed.

(** The result is never the empty string: when nothing is left after
    filtering and trimming, the placeholder is returned. *)
Lemma extractNewContent_placeholder before after :
  trim (joinLines
          (List.filter
             (keepLine (drop (divergeFrom 0 (splitLines before) (splitLines after)
                                (length (splitLines before)))
                             (splitLines after)))
             (drop (divergeFrom 0 (splitLines before) (splitLines after)
                      (length (splitLines before)))
                   (splitLines after)))) = [] ->
  extractNewContent before after = NO_RESPONSE.
Proof. intros H. unfold extractNewContent. rewrite H. reflexivity. Qed.


(** An unchanged pane yields the placeholder. *)
Lemma extractNewContent_unchanged pane :
  extractNewContent pane pane = NO_RESPONSE.
Proof.
  unfold extractNewContent. rewrite divergeFrom_same.
  rewrite drop_all. reflexivity.
Qed.

(** C9 (new pane content), at a capture where the code departs from it. The
    second disjunct of the filter keeps every line whose first index in the
    new lines lies strictly between 0 and length - 3, blank or not: with
    nothing on screen before and six new lines after, the separator line at
    index 1 survives and the whole capture is returned, separator line
    included. *)
Theorem extract_keeps_inner_separator :
  splitLines paneAfter
  = [js "a"; SEPARATOR; js "b"; js "c"; js "d"; js "e"]
  /\ extractNewContent paneBefore paneAfter = paneAfter
  /\ In SEPARATOR (splitLines (extractNewContent paneBefore paneAfter)).
Proof.
  split; [reflexivity|]. split; [reflexivity|].
  vm_compute. right. left. reflexivity.
Qed.

(** At the head of the new lines and in their last three the separator is
    filtered out, as the comment on the filter intends everywhere. *)
Example extract_drops_edge_separator :
  extractNewContent (js "x")
    (js "x" ++ [10%N] ++ SEPARATOR ++ [10%N] ++ js "answer" ++ [10%N]
     ++ SEPARATOR ++ [10%N] ++ js "❯ ")
  = js "answer".
Proof. reflexivity. Qed.

End TmuxClaims.

(** ** Further properties of the deduplicator and the orchestrator *)

Module QueueExtras.
Import Queue QueueFacts Examples Examples2.

(** With a usable messageId, the verdict does not depend on the prompt
    fallback; without one, and without the fallback, it is [false]. *)
Lemma isRunAlreadyQueued_fallback_irrelevant run items :
  truthy (trim <$> messageId run) = true ->
  isRunAlreadyQueued run items true = isRunAlreadyQueued run items false.
Proof. intros H. unfold isRunAlreadyQueued. rewrite H. reflexivity. Qed.

(** Dedup by id, in both deduplicating modes: a candidate with a non-empty
    trimmed messageId is skipped exactly when a queued item has the same
    trimmed messageId and the same four routing fields; equal prompts play no
    part. *)
Theorem skip_by_message_id_iff (run : FollowupRun) (items : list FollowupRun)
    (dedupeMode : QueueDedupeMode) (m : jsstring) :
  dedupeMode <> DedupeNone ->
  trim <$> messageId run = Some m ->
  m <> [] ->
  shouldSkipQueueItem run items (dedupeOf dedupeMode) = true <->
  exists item, In item items /\ trim <$> messageId item = Some m
               /\ sameRouting item run.
Proof.
  intros Hmode Hm Hne.
  destruct dedupeMode; [| |congruence]; simpl;
    apply isRunAlreadyQueued_message_id; assumption.
Qed.

Lemma skip_by_message_id_iff_witness :
  shouldSkipQueueItem runA_retry [runB; runA] (dedupeOf DedupePrompt) = true <->
  exists item, In item [runB; runA] /\ trim <$> messageId item = Some (js "m-1")
               /\ sameRouting item runA_retry.
Proof.
  apply (skip_by_message_id_iff runA_retry [runB; runA] DedupePrompt (js "m-1")).
  - discriminate.
  - reflexivity.
  - discriminate.
Defined.

(** The prompt fallback: under mode "prompt" a candidate without a usable
    messageId is refused when a queued item has the same prompt and the same
    routing, and the queue is left as it was. *)
Theorem prompt_fallback_rejects (policy : DropPolicy) (q : FollowupQueue)
    (r1 r2 : FollowupRun) (now stamp : Z) :
  truthy (trim <$> messageId r2) = false ->
  prompt r1 = prompt r2 ->
  sameRouting r1 r2 ->
  In r1 (items q) ->
  enqueueFollowupRun policy q r2 DedupePrompt now stamp
  = mkEnqueueResult false q None.
Proof.
  intros Hid Hp Hr Hin. apply enqueue_skipped. simpl.
  unfold isRunAlreadyQueued. rewrite Hid. simpl.
  apply existsb_exists. exists r1. split; [exact Hin|].
  apply andb_true_iff. split.
  - apply bool_decide_eq_true. exact Hp.
  - apply hasSameRouting_spec. exact Hr.
Qed.

Lemma prompt_fallback_rejects_witness :
  enqueueFollowupRun fifoDropPolicy queueWithNoId runNoId DedupePrompt 4500 4500
  = mkEnqueueResult false queueWithNoId None.
Proof.
  apply (prompt_fallback_rejects fifoDropPolicy queueWithNoId runNoId runNoId).
  - reflexivity.
  - reflexivity.
  - repeat split.
  - left. reflexivity.
Defined.

(** Where deduplication does not apply (mode "none", or mode "message-id"
    and a candidate whose messageId is absent or blank), nothing is ever
    skipped: the call returns the drop policy's verdict even when the very
    same run is already queued. *)
Theorem no_dedup_without_id (policy : DropPolicy) (q : FollowupQueue)
    (r : FollowupRun) (dedupeMode : QueueDedupeMode) (now stamp : Z) :
  dedupeMode = DedupeNone
  \/ (dedupeMode = DedupeMessageId /\ truthy (trim <$> messageId r) = false) ->
  enqueued (enqueueFollowupRun policy q r dedupeMode now stamp)
  = fst (policy summarize (touched q r now)).
Proof.
  intros [->|[-> Hid]]; apply enqueue_not_skipped.
  - reflexivity.
  - simpl. apply isRunAlreadyQueued_no_id. exact Hid.
Qed.

(** The same id-less run is queued twice under the default mode. *)
Lemma no_dedup_without_id_witness :
  In runNoId (items queueWithNoId)
  /\ enqueued (enqueueFollowupRun fifoDropPolicy queueWithNoId runNoId
                 DedupeMessageId 4500 4500) = true.
Proof.
  split; [left; reflexivity|].
  rewrite (no_dedup_without_id fifoDropPolicy queueWithNoId runNoId
             DedupeMessageId 4500 4500).
  - reflexivity.
  - right. split; reflexivity.
Defined.

(** The orchestrator never invents items: whatever is queued after a call
    is the candidate or was queued before. *)
Theorem enqueue_items_provenance (policy : DropPolicy) (q : FollowupQueue)
    (r x : FollowupRun) (dedupeMode : QueueDedupeMode) (now stamp : Z) :
  DropPolicyFrame policy ->
  In x (items (queueAfter (enqueueFollowupRun policy q r dedupeMode now stamp))) ->
  x = r \/ In x (items q).
Proof.
  intros F. rewrite enqueue_queueAfter.
  destruct (shouldSkipQueueItem _ _ _); [auto|].
  pose proof (frame_items policy F summarize (touched q r now)) as Hsub.
  destruct (policy summarize (touched q r now)) as [[|] q']; simpl in *.
  - intros Hin. apply in_app_or in Hin as [Hin|[->|[]]]; auto.
  - auto.
Qed.

Lemma enqueue_items_provenance_witness :
  runA = runB \/ In runA (items queueWithA).
Proof.
  apply (enqueue_items_provenance fifoDropPolicy queueWithA runB runA
           DedupeMessageId 5000 5000 QueueClaims.fifoDropPolicy_frame).
  vm_compute. auto.
Defined.

(** The inbox side-write is issued only for an accepted run on a draining
    queue, and then to the workspace of the run's own context, with the
    trimmed prompt. *)
Theorem inbox_write_sound (policy : DropPolicy) (q : FollowupQueue)
    (r : FollowupRun) (dedupeMode : QueueDedupeMode) (now stamp : Z)
    (w : InboxWrite) :
  DropPolicyFrame policy ->
  inbox (enqueueFollowupRun policy q r dedupeMode now stamp) = Some w ->
  enqueued (enqueueFollowupRun policy q r dedupeMode now stamp) = true
  /\ draining (queueAfter (enqueueFollowupRun policy q r dedupeMode now stamp))
     = true
  /\ run r ≫= workspaceDir = Some (inboxDir w)
  /\ inboxDir w <> []
  /\ inboxStamp w = stamp
  /\ inboxPrompt w = trim (prompt r).
Proof.
  intros F. unfold enqueueFollowupRun.
  destruct (shouldSkipQueueItem _ _ _); [discriminate|].
  pose proof (frame_lastRun policy F summarize
                (set_lastRun (run r) (set_lastEnqueuedAt now q))) as Hl.
  destruct (policy summarize _) as [[|] q']; simpl in *; [|discriminate].
  destruct (draining q') eqn:Hd; [|discriminate].
  rewrite Hl. unfold orElse.
  destruct (run r ≫= workspaceDir) as [[|c dir]|] eqn:Hws; simpl;
    try discriminate.
  intros [= <-]. simpl. rewrite Hd. repeat split. discriminate.
Qed.

Lemma inbox_write_sound_witness :
  inbox (enqueueFollowupRun fifoDropPolicy drainingQueue runC
           DedupeMessageId 5000 5001)
  = Some (mkInboxWrite (js "/home/dim/ws") 5001 (js "also run the tests"))
  /\ run runC ≫= workspaceDir = Some (js "/home/dim/ws").
Proof.
  split; [reflexivity|].
  apply (inbox_write_sound fifoDropPolicy drainingQueue runC DedupeMessageId
           5000 5001
           (mkInboxWrite (js "/home/dim/ws") 5001 (js "also run the tests"))
           QueueClaims.fifoDropPolicy_frame).
  reflexivity.
Defined.

(** The two revisions of [enqueueFollowupRun] in enqueue.ts return the same
    boolean, leave the same queue and issue the same inbox write: the
    fallback to queue.lastRun added by the later revision changes no
    outcome. *)
Theorem revisions_agree (policy : DropPolicy) (q : FollowupQueue)
    (r : FollowupRun) (dedupeMode : QueueDedupeMode) (now stamp : Z) :
  DropPolicyFrame policy ->
  enqueueFollowupRun policy q r dedupeMode now stamp
  = QueueRev1.enqueueFollowupRunRev1 policy q r dedupeMode now stamp.
Proof.
  intros F. unfold enqueueFollowupRun, QueueRev1.enqueueFollowupRunRev1.
  destruct (shouldSkipQueueItem _ _ _); [reflexivity|].
  pose proof (frame_lastRun policy F summarize
                (set_lastRun (run r) (set_lastEnqueuedAt now q))) as Hl.
  destruct (policy summarize _) as [[|] q']; simpl in *; [|reflexivity].
  destruct (draining q'); [|reflexivity].
  rewrite Hl. unfold orElse.
  destruct (truthy (run r ≫= workspaceDir)) eqn:Hws; rewrite ?Hws; reflexivity.
Qed.

Lemma revisions_agree_witness :
  enqueueFollowupRun fifoDropPolicy drainingQueue runSparse DedupeMessageId
    3000 3000
  = QueueRev1.enqueueFollowupRunRev1 fifoDropPolicy drainingQueue runSparse
      DedupeMessageId 3000 3000.
Proof.
  apply (revisions_agree fifoDropPolicy drainingQueue runSparse DedupeMessageId
           3000 3000 QueueClaims.fifoDropPolicy_frame).
Defined.

End QueueExtras.

(** ** Further properties of the restart handoff *)

Module HandoffExtras.
Import Queue Handoff Replay Examples.
Import HandoffClaims.

(** On the file contents of the model (text that does not parse, or the
    JSON of a snapshot): a returned snapshot was in the file, could be read,
    and is at most five minutes old. *)
Lemma load_returns_only_fresh (now : Z) (fs : Fs) (data : HandoffData) :
  fst (loadAndClearRestartHandoff now fs) = Some data ->
  handoffFile fs = Some (Snapshot data)
  /\ readFails fs = false
  /\ now - savedAt data <= 300000.
Proof.
  unfold loadAndClearRestartHandoff.
  destruct (handoffFile fs) as [raw|]; [|discriminate].
  destruct (readFails fs); [discriminate|].
  destruct raw as [raw|d]; simpl; [discriminate|].
  rewrite HANDOFF_MAX_AGE_MS_value.
  destruct (Z.ltb_spec 300000 (now - savedAt d)); [discriminate|].
  simpl. intros [= ->]. auto.
Qed.

(** The file system after a load holds the file it held before, or none:
    the load never writes. *)
Lemma load_never_writes now fs :
  handoffFile (snd (loadAndClearRestartHandoff now fs)) = handoffFile fs
  \/ handoffFile (snd (loadAndClearRestartHandoff now fs)) = None.
Proof.
  unfold loadAndClearRestartHandoff, tryUnlinkHandoff.
  destruct (handoffFile fs) as [raw|] eqn:Hf; [|auto].
  destruct (readFails fs); [auto|].
  destruct (unlinkFails fs), (JSON_parse raw) as [d|];
    try destruct (HANDOFF_MAX_AGE_MS <? now - savedAt d); simpl; auto.
Qed.

(** Round trip across a restart: when some queue contributes, the write
    succeeds and the file can be read back within five minutes, the load
    returns exactly the snapshot that was saved (saved time, version 1, the
    contributed queues in order); if the file can be unlinked it is gone
    afterwards. *)
Theorem save_then_load (FOLLOWUP_QUEUES : list (jsstring * FollowupQueue))
    (now later : Z) (fs : Fs) :
  persistedQueues FOLLOWUP_QUEUES <> [] ->
  writeFails fs = false ->
  readFails fs = false ->
  later - now <= 300000 ->
  fst (loadAndClearRestartHandoff later
         (saveRestartHandoff FOLLOWUP_QUEUES now fs))
  = Some (mkHandoffData now 1 (persistedQueues FOLLOWUP_QUEUES))
  /\ (unlinkFails fs = false ->
      handoffFile (snd (loadAndClearRestartHandoff later
                          (saveRestartHandoff FOLLOWUP_QUEUES now fs)))
      = None).
Proof.
  intros Hne Hw Hr Hfresh.
  unfold saveRestartHandoff. rewrite fold_saveStep. simpl.
  destruct (persistedQueues FOLLOWUP_QUEUES) as [|hq qs] eqn:Hq;
    [congruence|].
  cbn [length Nat.eqb]. unfold tryWriteHandoff. rewrite Hw.
  unfold loadAndClearRestartHandoff, tryUnlinkHandoff. simpl.
  rewrite Hr, HANDOFF_MAX_AGE_MS_value.
  destruct (Z.ltb_spec 300000 (later - now)); [lia|].
  split; [reflexivity|]. intros ->. reflexivity.
Qed.

Lemma save_then_load_witness :
  fst (loadAndClearRestartHandoff 6000 (saveRestartHandoff allQueues 5000 cleanFs))
  = Some (mkHandoffData 5000 1 (persistedQueues allQueues))
  /\ (unlinkFails cleanFs = false ->
      handoffFile (snd (loadAndClearRestartHandoff 6000
                          (saveRestartHandoff allQueues 5000 cleanFs)))
      = None).
Proof.
  apply (save_then_load allQueues 5000 6000 cleanFs).
  - discriminate.
  - reflexivity.
  - reflexivity.
  - lia.
Defined.

(** A queue item with a non-empty [originatingTo] contributes to the
    specification's snapshot queues. *)
Lemma persistedQueues_complete FOLLOWUP_QUEUES k queue item :
  In (k, queue) FOLLOWUP_QUEUES ->
  In item (items queue) ->
  carriesOriginatingTo item = true ->
  In (contribution (k, queue)) (persistedQueues FOLLOWUP_QUEUES)
  /\ In (toHandoffItem item) (hq_items (contribution (k, queue))).
Proof.
  intros Hq Hitem Hto.
  assert (Hin : In (toHandoffItem item) (hq_items (contribution (k, queue)))).
  { unfold contribution. simpl. apply in_map. apply filter_In. auto. }
  split; [|exact Hin].
  unfold persistedQueues. apply filter_In. split.
  - apply in_map. exact Hq.
  - apply negb_true_iff, bool_decide_eq_false. intros Hnil.
    rewrite Hnil in Hin. destruct Hin.
Qed.

(** No routable message is left behind: when the write does not fail, every
    queued item with a non-empty originatingTo is in the file after
    saveRestartHandoff, under its queue's key and mode. *)
Theorem save_keeps_every_routable_item
    (FOLLOWUP_QUEUES : list (jsstring * FollowupQueue)) (now : Z) (fs : Fs)
    (k : jsstring) (queue : FollowupQueue) (item : FollowupRun) :
  In (k, queue) FOLLOWUP_QUEUES ->
  In item (items queue) ->
  carriesOriginatingTo item = true ->
  writeFails fs = false ->
  exists data hq,
    handoffFile (saveRestartHandoff FOLLOWUP_QUEUES now fs)
    = Some (Snapshot data)
    /\ savedAt data = now
    /\ In hq (queues data)
    /\ key hq = k /\ hq_mode hq = mode queue
    /\ In (toHandoffItem item) (hq_items hq).
Proof.
  intros Hq Hitem Hto Hw.
  destruct (persistedQueues_complete FOLLOWUP_QUEUES k queue item Hq Hitem Hto)
    as [Hin Hitem'].
  unfold saveRestartHandoff. rewrite fold_saveStep. simpl.
  destruct (persistedQueues FOLLOWUP_QUEUES) as [|hq0 qs] eqn:Hp;
    [destruct Hin|].
  cbn [length Nat.eqb]. unfold tryWriteHandoff. rewrite Hw. simpl.
  eexists; exists (contribution (k, queue)).
  split; [reflexivity|]. simpl. auto.
Qed.

Lemma save_keeps_every_routable_item_witness :
  exists data hq,
    handoffFile (saveRestartHandoff allQueues 5000 cleanFs)
    = Some (Snapshot data)
    /\ savedAt data = 5000
    /\ In hq (queues data)
    /\ key hq = js "agent:main" /\ hq_mode hq = mode mixedQueue
    /\ In (toHandoffItem runA) (hq_items hq).
Proof.
  apply (save_keeps_every_routable_item allQueues 5000 cleanFs (js "agent:main")
           mixedQueue runA).
  - right. left. reflexivity.
  - left. reflexivity.
  - reflexivity.
  - reflexivity.
Defined.

(** A shutdown with nothing routable to persist leaves the file system as it
    is: an older handoff file is neither removed nor replaced. *)
Theorem save_idle_keeps_old_file
    (FOLLOWUP_QUEUES : list (jsstring * FollowupQueue)) (now : Z) (fs : Fs) :
  (forall k queue item,
      In (k, queue) FOLLOWUP_QUEUES -> In item (items queue) ->
      truthy (originatingTo item) = false) ->
  saveRestartHandoff FOLLOWUP_QUEUES now fs = fs.
Proof.
  intros Hnone.
  assert (Hp : persistedQueues FOLLOWUP_QUEUES = []).
  { destruct (persistedQueues FOLLOWUP_QUEUES) as [|hq qs] eqn:Hq;
      [reflexivity|exfalso].
    destruct (persistedQueues_sound FOLLOWUP_QUEUES hq) as (Hne & queue & Hin & _ & Hitems).
    { rewrite Hq. left. reflexivity. }
    destruct (hq_items hq) as [|hi rest] eqn:Hhi; [congruence|].
    assert (Hmem : In hi (List.map toHandoffItem
                            (List.filter carriesOriginatingTo (items queue))))
      by (rewrite <- Hitems; left; reflexivity).
    apply in_map_iff in Hmem as (item & _ & Hitem).
    apply filter_In in Hitem as [Hitem Hto].
    rewrite <- truthy_carries in Hto.
    rewrite (Hnone (key hq) queue item Hin Hitem) in Hto. discriminate. }
  unfold saveRestartHandoff. rewrite fold_saveStep, Hp. reflexivity.
Qed.

Lemma save_idle_keeps_old_file_witness :
  saveRestartHandoff [(js "agent:cron", internalQueue)] 900000
    (fsWith (Snapshot (snapshotAt 1000)))
  = fsWith (Snapshot (snapshotAt 1000)).
Proof.
  apply (save_idle_keeps_old_file [(js "agent:cron", internalQueue)] 900000
           (fsWith (Snapshot (snapshotAt 1000)))).
  intros k queue item [[= <- <-]|[]] [<-|[]]. reflexivity.
Defined.

(** The inner loop adds one event per item, in order. *)
Lemma replayQueue_params callGateway queue : forall its log,
  List.map eventParams (fold_left (replayItem callGateway queue) its log)
  = List.map eventParams log ++ List.map (replayParams queue) its.
Proof.
  induction its as [|item rest IH]; intros log; simpl.
  - rewrite app_nil_r. reflexivity.
  - rewrite IH. unfold replayItem.
    destruct (callGateway (replayParams queue item));
      rewrite map_app, <- app_assoc; reflexivity.
Qed.

Lemma replayQueues_params callGateway : forall qs log,
  List.map eventParams (fold_left (replayQueue callGateway) qs log)
  = List.map eventParams log
    ++ flat_map (fun queue => List.map (replayParams queue) (hq_items queue)) qs.
Proof.
  induction qs as [|queue rest IH]; intros log; simpl.
  - rewrite app_nil_r. reflexivity.
  - rewrite IH. unfold replayQueue. rewrite replayQueue_params.
    rewrite <- app_assoc. reflexivity.
Qed.

Lemma replay_calls_params_helper callGateway handoff :
  List.map eventParams (replayHandoffQueues callGateway handoff)
  = expectedCalls handoff.
Proof.
  unfold replayHandoffQueues, expectedCalls.
  rewrite replayQueues_params. reflexivity.
Qed.

Lemma replayQueue_outcomes callGateway queue : forall its log,
  Forall (recordsOutcome callGateway) log ->
  Forall (recordsOutcome callGateway)
         (fold_left (replayItem callGateway queue) its log).
Proof.
  induction its as [|item rest IH]; intros log Hlog; simpl; [exact Hlog|].
  apply IH. unfold replayItem.
  destruct (callGateway (replayParams queue item)) eqn:Hc;
    apply Forall_app; (split; [exact Hlog|]);
    apply List.Forall_cons; try apply List.Forall_nil; exact Hc.
Qed.

Lemma replayQueues_outcomes callGateway : forall qs log,
  Forall (recordsOutcome callGateway) log ->
  Forall (recordsOutcome callGateway)
         (fold_left (replayQueue callGateway) qs log).
Proof.
  induction qs as [|queue rest IH]; intros log Hlog; simpl; [exact Hlog|].
  apply IH. apply replayQueue_outcomes. exact Hlog.
Qed.

(** Best-effort replay: whichever gateway calls fail, replayHandoffQueues
    makes exactly one call per item of the snapshot, queue by queue and item
    by item in order, each with deliver: true; an event is a failure exactly
    when its own call failed. *)
Theorem replay_calls_every_item (callGateway : AgentParams -> bool)
    (handoff : HandoffData) :
  List.map eventParams (replayHandoffQueues callGateway handoff)
  = expectedCalls handoff
  /\ Forall (fun p => p_deliver p = true) (expectedCalls handoff)
  /\ Forall (recordsOutcome callGateway)
            (replayHandoffQueues callGateway handoff).
Proof.
  split; [|split].
  - apply replay_calls_params_helper.
  - unfold expectedCalls. apply List.Forall_forall. intros p Hp.
    apply in_flat_map in Hp as (queue & _ & Hp).
    apply in_map_iff in Hp as (item & <- & _). reflexivity.
  - apply replayQueues_outcomes. apply List.Forall_nil.
Qed.

(** Across a restart from a clean state directory, only routable messages
    are replayed: every gateway call made from the loaded snapshot delivers
    (deliver: true) the prompt of an item that was queued at shutdown, to
    that item's non-empty originatingTo. *)
Theorem restart_replays_only_routable
    (FOLLOWUP_QUEUES : list (jsstring * FollowupQueue)) (now later : Z)
    (fs : Fs) (data : HandoffData) (callGateway : AgentParams -> bool)
    (e : ReplayEvent) :
  handoffFile fs = None ->
  fst (loadAndClearRestartHandoff later
         (saveRestartHandoff FOLLOWUP_QUEUES now fs)) = Some data ->
  In e (replayHandoffQueues callGateway data) ->
  p_deliver (eventParams e) = true
  /\ truthy (p_to (eventParams e)) = true
  /\ exists k queue item,
       In (k, queue) FOLLOWUP_QUEUES /\ In item (items queue)
       /\ p_message (eventParams e) = prompt item
       /\ p_to (eventParams e) = originatingTo item.
Proof.
  intros Hclean Hload He.
  apply load_returns_only_fresh in Hload as (Hfile & _ & _).
  assert (Hdata : queues data = persistedQueues FOLLOWUP_QUEUES).
  { revert Hfile. unfold saveRestartHandoff. rewrite fold_saveStep. simpl.
    destruct (persistedQueues FOLLOWUP_QUEUES) as [|hq qs];
      cbn [length Nat.eqb]; [congruence|].
    unfold tryWriteHandoff. destruct (writeFails fs); [congruence|].
    simpl. intros [= <-]. reflexivity. }
  assert (Hp : In (eventParams e) (expectedCalls data)).
  { rewrite <- (replay_calls_params_helper callGateway data).
    apply in_map. exact He. }
  unfold expectedCalls in Hp. rewrite Hdata in Hp.
  apply in_flat_map in Hp as (hq & Hhq & Hp).
  apply in_map_iff in Hp as (hi & Hpe & Hhi).
  destruct (persistedQueues_sound FOLLOWUP_QUEUES hq Hhq)
    as (_ & queue & Hq & _ & Hitems).
  rewrite Hitems in Hhi. apply in_map_iff in Hhi as (item & <- & Hitem).
  apply filter_In in Hitem as [Hitem Hto].
  rewrite <- Hpe. simpl. split; [reflexivity|]. split.
  - rewrite truthy_carries. exact Hto.
  - exists (key hq), queue, item. auto.
Qed.

(** The gateway is down at startup: the one routable item of [allQueues] is
    still attempted, with its thread id rendered as a string. *)
Lemma restart_replays_only_routable_witness :
  replayHandoffQueues (fun _ => false) (mkHandoffData 5000 1 (persistedQueues allQueues))
  = [ReplayFailed
       (mkAgentParams (js "agent:main") (js "deploy the api") true
          (Some (js "telegram")) (Some (js "123")) None (Some (js "7")))]
  /\ truthy (Some (js "123")) = true.
Proof.
  split; [reflexivity|].
  apply (restart_replays_only_routable allQueues 5000 6000 cleanFs
           (mkHandoffData 5000 1 (persistedQueues allQueues)) (fun _ => false)
           (ReplayFailed
              (mkAgentParams (js "agent:main") (js "deploy the api") true
                 (Some (js "telegram")) (Some (js "123")) None
                 (Some (js "7"))))).
  - reflexivity.
  - reflexivity.
  - left. reflexivity.
Defined.

End HandoffExtras.

(** ** Further properties of the session store, the proxy and its gate *)

Module SessionExtras.
Import Sessions Examples Examples2.

Lemma truthy_app_l (a b : jsstring) :
  truthy (Some a) = true -> truthy (Some (a ++ b)) = true.
Proof. destruct a; [discriminate|reflexivity]. Qed.

Lemma formatLabel_truthy label sessionId :
  truthy (Some (formatLabel label sessionId)) = true.
Proof. unfold formatLabel. apply truthy_app_l. reflexivity. Qed.

(** A label is the bracketed display name, cut to forty code units and an
    ellipsis: never more than 51 code units. *)
Lemma formatLabel_length label sessionId :
  (length (formatLabel label sessionId) <= 51)%nat.
Proof.
  unfold formatLabel.
  set (displayLabel := match label with Some l => l | None => sliceTo 8 sessionId end).
  rewrite !length_app.
  change (length (js "[Сессия: ")) with 9%nat.
  change (length (js "]")) with 1%nat.
  destruct (Nat.ltb_spec 40 (length displayLabel)).
  - rewrite length_app. unfold sliceTo. rewrite length_take.
    change (length (js "…")) with 1%nat. lia.
  - lia.
Qed.



Section Proxy.

Variable toLowerCase : jsstring -> jsstring.
Variable checkTmuxSession : jsstring -> bool.
Variable captureTmuxScreen : jsstring -> jsstring.
Variable sendToTmux : jsstring -> jsstring -> Tmux.TmuxRunResult.
Variable runWithResume : jsstring -> jsstring -> jsstring -> Resume.ResumeRunResult.

Let proxy := tryProxyMessage toLowerCase checkTmuxSession captureTmuxScreen
               sendToTmux runWithResume.

(** Every handled message comes with a non-empty response. *)
Lemma handled_response_truthy (chatId text : jsstring) (store : StateStore) :
  handled (fst (proxy chatId text store)) = true ->
  truthy (response (fst (proxy chatId text store))) = true.
Proof.
  unfold proxy, tryProxyMessage.
  destruct (getSession chatId store) as [session|]; [|discriminate].
  destruct (isBackCommand toLowerCase text).
  { intros _. cbn [fst response]. apply truthy_app_l. reflexivity. }
  destruct (bool_decide (mode session = ModeTmux) && truthy (tmuxSession session)).
  { destruct (negb (checkTmuxSession _)).
    { intros _. cbn [fst response]. apply truthy_app_l. reflexivity. }
    destruct (isScreenCommand toLowerCase text).
    { intros _. cbn [fst response]. apply truthy_app_l, formatLabel_truthy. }
    destruct (negb (Tmux.success _)); intros _; cbn [fst response];
      apply truthy_app_l, formatLabel_truthy. }
  destruct (bool_decide (mode session = ModeResume) && truthy (resumeId session)
            && truthy (cwd session)); [|discriminate].
  destruct (negb (Resume.success _)); intros _; cbn [fst response];
    apply truthy_app_l, formatLabel_truthy.
Qed.

(** The store after a call is the store before, or the store before without
    the chat's own entry. *)
Lemma proxy_store_cases (chatId text : jsstring) (store : StateStore) :
  snd (proxy chatId text store) = store
  \/ snd (proxy chatId text store) = delete chatId store.
Proof.
  unfold proxy, tryProxyMessage, clearSession, getSession.
  destruct (store !! chatId) as [session|] eqn:Hs; [|auto].
  destruct (isBackCommand toLowerCase text); [simpl; auto|].
  destruct (bool_decide (mode session = ModeTmux) && truthy (tmuxSession session)).
  { destruct (negb (checkTmuxSession _)); [simpl; auto|].
    destruct (isScreenCommand toLowerCase text); [simpl; auto|].
    destruct (negb (Tmux.success _)); simpl; auto. }
  destruct (bool_decide (mode session = ModeResume) && truthy (resumeId session)
            && truthy (cwd session)); [|simpl; auto].
  destruct (negb (Resume.success _)); simpl; auto.
Qed.

End Proxy.

(** A handled message always carries a non-empty response, on every path
    (detach, dead session, screen, reply, error). *)
Theorem handled_has_response
    (toLowerCase : jsstring -> jsstring)
    (checkTmuxSession : jsstring -> bool)
    (captureTmuxScreen : jsstring -> jsstring)
    (sendToTmux : jsstring -> jsstring -> Tmux.TmuxRunResult)
    (runWithResume : jsstring -> jsstring -> jsstring -> Resume.ResumeRunResult)
    (chatId text : jsstring) (store : StateStore) :
  handled (fst (tryProxyMessage toLowerCase checkTmuxSession captureTmuxScreen
                  sendToTmux runWithResume chatId text store)) = true ->
  exists r, response (fst (tryProxyMessage toLowerCase checkTmuxSession
                             captureTmuxScreen sendToTmux runWithResume
                             chatId text store)) = Some r
            /\ r <> [].
Proof.
  intros H.
  apply (handled_response_truthy toLowerCase checkTmuxSession captureTmuxScreen
           sendToTmux runWithResume) in H.
  apply truthy_Some in H. exact H.
Qed.

Lemma handled_has_response_witness :
  exists r, response (fst (tryProxyMessage toLowerCaseBasic liveTmux someScreen
                             echoTmux deadResume chat (js "ls") (storeWith tmuxEntry)))
            = Some r /\ r <> [].
Proof.
  apply (handled_has_response toLowerCaseBasic liveTmux someScreen echoTmux
           deadResume chat (js "ls") (storeWith tmuxEntry)).
  vm_compute. reflexivity.
Defined.

(** tryProxyMessage touches the session store only by removing the entry of
    the chat it was called for: entries of other chats are never changed and
    no entry is ever added. *)
Theorem proxy_store_frame
    (toLowerCase : jsstring -> jsstring)
    (checkTmuxSession : jsstring -> bool)
    (captureTmuxScreen : jsstring -> jsstring)
    (sendToTmux : jsstring -> jsstring -> Tmux.TmuxRunResult)
    (runWithResume : jsstring -> jsstring -> jsstring -> Resume.ResumeRunResult)
    (chatId other text : jsstring) (store : StateStore) :
  other <> chatId ->
  getSession other
    (snd (tryProxyMessage toLowerCase checkTmuxSession captureTmuxScreen
            sendToTmux runWithResume chatId text store))
  = getSession other store
  /\ (getSession chatId
        (snd (tryProxyMessage toLowerCase checkTmuxSession captureTmuxScreen
                sendToTmux runWithResume chatId text store)) = None
      \/ getSession chatId
           (snd (tryProxyMessage toLowerCase checkTmuxSession captureTmuxScreen
                   sendToTmux runWithResume chatId text store))
         = getSession chatId store).
Proof.
  intros Hne. unfold getSession.
  destruct (proxy_store_cases toLowerCase checkTmuxSession captureTmuxScreen
              sendToTmux runWithResume chatId text store) as [-> | ->].
  - auto.
  - rewrite lookup_delete_ne by congruence. rewrite lookup_delete_eq. auto.
Qed.

Lemma proxy_store_frame_witness :
  getSession (js "43")
    (snd (tryProxyMessage toLowerCaseBasic noTmux blankScreen deadTmux deadResume
            chat (js "back")
            (<[js "43" := resumeEntry]> (storeWith tmuxEntry))))
  = Some resumeEntry.
Proof.
  destruct (proxy_store_frame toLowerCaseBasic noTmux blankScreen deadTmux
              deadResume chat (js "43") (js "back")
              (<[js "43" := resumeEntry]> (storeWith tmuxEntry)))
    as [H _].
  - discriminate.
  - rewrite H. unfold getSession. apply lookup_insert_eq.
Defined.



End SessionExtras.

(** ** The paths of the proxy through an attached session, and the gate *)

Module ProxyExtras.
Import Sessions Gate Examples Examples2 SessionExtras.

Lemma sliceLast_length n (s : jsstring) : (length (sliceLast n s) <= n)%nat.
Proof. unfold sliceLast. rewrite length_drop. lia. Qed.

Lemma sliceTo_length n (s : jsstring) : (length (sliceTo n s) <= n)%nat.
Proof. unfold sliceTo. rewrite length_take. lia. Qed.

(** An attached session consumes every message that is not a back-command:
    with a live tmux session, or with a resume entry that has its resumeId
    and cwd, the message is handled (also when the driver reports an error)
    and the entry stays in the store. *)
Theorem attached_session_consumes
    (toLowerCase : jsstring -> jsstring)
    (checkTmuxSession : jsstring -> bool)
    (captureTmuxScreen : jsstring -> jsstring)
    (sendToTmux : jsstring -> jsstring -> Tmux.TmuxRunResult)
    (runWithResume : jsstring -> jsstring -> jsstring -> Resume.ResumeRunResult)
    (chatId text : jsstring) (store : StateStore) (entry : SessionEntry) :
  store !! chatId = Some entry ->
  isBackCommand toLowerCase text = false ->
  (mode entry = ModeTmux /\ truthy (tmuxSession entry) = true
   /\ checkTmuxSession (interpolate (tmuxSession entry)) = true)
  \/ (mode entry = ModeResume /\ truthy (resumeId entry) = true
      /\ truthy (cwd entry) = true) ->
  handled (fst (tryProxyMessage toLowerCase checkTmuxSession captureTmuxScreen
                  sendToTmux runWithResume chatId text store)) = true
  /\ snd (tryProxyMessage toLowerCase checkTmuxSession captureTmuxScreen
            sendToTmux runWithResume chatId text store) = store.
Proof.
  intros Hentry Hback Hpath. unfold tryProxyMessage, getSession.
  rewrite Hentry, Hback.
  destruct Hpath as [(Hm & Ht & Hlive)|(Hm & Hr & Hc)]; rewrite Hm.
  - rewrite Ht. cbn [bool_decide decide_rel andb]. 
    rewrite bool_decide_eq_true_2 by reflexivity. cbn [andb].
    rewrite Hlive. cbn [negb].
    destruct (isScreenCommand toLowerCase text); [split; reflexivity|].
    destruct (negb (Tmux.success _)); split; reflexivity.
  - rewrite bool_decide_eq_false_2 by discriminate. cbn [andb].
    rewrite bool_decide_eq_true_2 by reflexivity. rewrite Hr, Hc. cbn [andb].
    destruct (negb (Resume.success _)); split; reflexivity.
Qed.

(** The resume driver fails, and the entry stays for a retry. *)
Lemma attached_session_consumes_witness :
  handled (fst (tryProxyMessage toLowerCaseBasic noTmux blankScreen deadTmux
                  deadResume chat (js "ls") (storeWith resumeEntry))) = true
  /\ snd (tryProxyMessage toLowerCaseBasic noTmux blankScreen deadTmux
            deadResume chat (js "ls") (storeWith resumeEntry))
     = storeWith resumeEntry.
Proof.
  apply (attached_session_consumes toLowerCaseBasic noTmux blankScreen deadTmux
           deadResume chat (js "ls") (storeWith resumeEntry) resumeEntry).
  - apply lookup_singleton_eq.
  - vm_compute. reflexivity.
  - right. repeat split.
Defined.

(** Replies fit a Telegram message: a screen capture, a tmux reply and a
    resume reply are never longer than 4053 UTF-16 code units (the label of
    at most 51, two line breaks and at most 4000 of output; the screen path
    keeps the last 3000 of the capture). *)
Theorem proxied_reply_bounded
    (toLowerCase : jsstring -> jsstring)
    (checkTmuxSession : jsstring -> bool)
    (captureTmuxScreen : jsstring -> jsstring)
    (sendToTmux : jsstring -> jsstring -> Tmux.TmuxRunResult)
    (runWithResume : jsstring -> jsstring -> jsstring -> Resume.ResumeRunResult)
    (chatId text : jsstring) (store : StateStore) (entry : SessionEntry) :
  store !! chatId = Some entry ->
  isBackCommand toLowerCase text = false ->
  (mode entry = ModeTmux /\ truthy (tmuxSession entry) = true
   /\ checkTmuxSession (interpolate (tmuxSession entry)) = true
   /\ (isScreenCommand toLowerCase text = true
       \/ Tmux.success (sendToTmux (interpolate (tmuxSession entry)) text) = true))
  \/ (mode entry = ModeResume /\ truthy (resumeId entry) = true
      /\ truthy (cwd entry) = true
      /\ Resume.success (runWithResume (interpolate (resumeId entry))
                           (interpolate (cwd entry)) text) = true) ->
  exists r,
    response (fst (tryProxyMessage toLowerCase checkTmuxSession captureTmuxScreen
                     sendToTmux runWithResume chatId text store)) = Some r
    /\ (length r <= 4053)%nat.
Proof.
  intros Hentry Hback Hpath. unfold tryProxyMessage, getSession.
  rewrite Hentry, Hback.
  assert (H17 : length (js " — текущий экран:") = 17%nat) by reflexivity.
  assert (H3 : length (js "```") = 3%nat) by reflexivity.
  destruct Hpath as [(Hm & Ht & Hlive & Hp)|(Hm & Hr & Hc & Hok)]; rewrite Hm.
  - rewrite Ht. rewrite bool_decide_eq_true_2 by reflexivity. cbn [andb].
    rewrite Hlive. cbn [negb].
    pose proof (formatLabel_length (label entry) (interpolate (tmuxSession entry))).
    destruct (isScreenCommand toLowerCase text) eqn:Hscreen.
    + eexists. split; [reflexivity|].
      rewrite !length_app, H17, H3. cbn [length nl].
      pose proof (sliceLast_length 3000
                    (trim (captureTmuxScreen (interpolate (tmuxSession entry))))).
      lia.
    + destruct Hp as [Hp|Hp]; [discriminate|]. rewrite Hp. cbn [negb].
      eexists. split; [reflexivity|].
      rewrite !length_app. cbn [length nl].
      pose proof (sliceTo_length 4000
                    (Tmux.output (sendToTmux (interpolate (tmuxSession entry)) text))).
      lia.
  - rewrite bool_decide_eq_false_2 by discriminate. cbn [andb].
    rewrite bool_decide_eq_true_2 by reflexivity. rewrite Hr, Hc. cbn [andb].
    rewrite Hok. cbn [negb].
    pose proof (formatLabel_length (label entry) (interpolate (resumeId entry))).
    eexists. split; [reflexivity|].
    rewrite !length_app. cbn [length nl].
    pose proof (sliceTo_length 4000
                  (Resume.output (runWithResume (interpolate (resumeId entry))
                                    (interpolate (cwd entry)) text))).
    lia.
Qed.

Lemma proxied_reply_bounded_witness :
  exists r,
    response (fst (tryProxyMessage toLowerCaseBasic liveTmux someScreen echoTmux
                     deadResume chat (js "Экран") (storeWith tmuxEntry))) = Some r
    /\ (length r <= 4053)%nat.
Proof.
  apply (proxied_reply_bounded toLowerCaseBasic liveTmux someScreen echoTmux
           deadResume chat (js "Экран") (storeWith tmuxEntry) tmuxEntry).
  - apply lookup_singleton_eq.
  - vm_compute. reflexivity.
  - left. split; [reflexivity|]. split; [reflexivity|]. split; [reflexivity|].
    left. vm_compute. reflexivity.
Defined.

(** Control messages never reach the attached program: for a back-command,
    and in tmux mode for a dead session or a screen command, the result does
    not depend on what sending to tmux or resuming would do. *)
Theorem control_messages_send_nothing
    (toLowerCase : jsstring -> jsstring)
    (checkTmuxSession : jsstring -> bool)
    (captureTmuxScreen : jsstring -> jsstring)
    (send1 send2 : jsstring -> jsstring -> Tmux.TmuxRunResult)
    (resume1 resume2 : jsstring -> jsstring -> jsstring -> Resume.ResumeRunResult)
    (chatId text : jsstring) (store : StateStore) (entry : SessionEntry) :
  store !! chatId = Some entry ->
  isBackCommand toLowerCase text = true
  \/ (mode entry = ModeTmux
      /\ (checkTmuxSession (interpolate (tmuxSession entry)) = false
          \/ isScreenCommand toLowerCase text = true)) ->
  tryProxyMessage toLowerCase checkTmuxSession captureTmuxScreen send1 resume1
    chatId text store
  = tryProxyMessage toLowerCase checkTmuxSession captureTmuxScreen send2 resume2
      chatId text store.
Proof.
  intros Hentry Hctl. unfold tryProxyMessage, getSession. rewrite Hentry.
  destruct (isBackCommand toLowerCase text); [reflexivity|].
  destruct Hctl as [Hb|(Hm & Hctl)]; [discriminate|]. rewrite Hm.
  rewrite bool_decide_eq_true_2 by reflexivity.
  rewrite bool_decide_eq_false_2 by discriminate. cbn [andb].
  destruct (truthy (tmuxSession entry)); [|reflexivity].
  destruct Hctl as [Hdead|Hscreen].
  - rewrite Hdead. reflexivity.
  - destruct (negb (checkTmuxSession _)); [reflexivity|].
    rewrite Hscreen. reflexivity.
Qed.

Lemma control_messages_send_nothing_witness :
  tryProxyMessage toLowerCaseBasic liveTmux someScreen echoTmux deadResume
    chat (js "screen") (storeWith tmuxEntry)
  = tryProxyMessage toLowerCaseBasic liveTmux someScreen deadTmux deadResume
      chat (js "screen") (storeWith tmuxEntry).
Proof.
  apply (control_messages_send_nothing toLowerCaseBasic liveTmux someScreen
           echoTmux deadTmux deadResume deadResume chat (js "screen")
           (storeWith tmuxEntry) tmuxEntry).
  - apply lookup_singleton_eq.
  - right. split; [reflexivity|]. right. vm_compute. reflexivity.
Defined.

(** A message without text is dispatched to the agent even while a session
    is attached: the proxy is not consulted. *)
Lemma gate_empty_text
    (toLowerCase : jsstring -> jsstring)
    (checkTmuxSession : jsstring -> bool)
    (captureTmuxScreen : jsstring -> jsstring)
    (sendToTmux : jsstring -> jsstring -> Tmux.TmuxRunResult)
    (runWithResume : jsstring -> jsstring -> jsstring -> Resume.ResumeRunResult)
    (chatIdStr : jsstring) (store : StateStore) :
  routeMessage toLowerCase checkTmuxSession captureTmuxScreen sendToTmux
    runWithResume [] chatIdStr store
  = (Dispatched, store).
Proof. reflexivity. Qed.

(** The gate of the Telegram message processor: a message with text is
    dispatched to the agent exactly when the proxy did not handle it;
    otherwise the proxy's response is sent to the chat and the agent never
    sees the message. The store is what the proxy left. *)
Theorem gate_dispatches_iff_unhandled
    (toLowerCase : jsstring -> jsstring)
    (checkTmuxSession : jsstring -> bool)
    (captureTmuxScreen : jsstring -> jsstring)
    (sendToTmux : jsstring -> jsstring -> Tmux.TmuxRunResult)
    (runWithResume : jsstring -> jsstring -> jsstring -> Resume.ResumeRunResult)
    (rawText chatIdStr : jsstring) (store : StateStore) :
  rawText <> [] ->
  chatIdStr <> [] ->
  (fst (routeMessage toLowerCase checkTmuxSession captureTmuxScreen sendToTmux
          runWithResume rawText chatIdStr store) = Dispatched
   <-> handled (fst (tryProxyMessage toLowerCase checkTmuxSession
                       captureTmuxScreen sendToTmux runWithResume
                       chatIdStr rawText store)) = false)
  /\ (handled (fst (tryProxyMessage toLowerCase checkTmuxSession
                      captureTmuxScreen sendToTmux runWithResume
                      chatIdStr rawText store)) = true ->
      fst (routeMessage toLowerCase checkTmuxSession captureTmuxScreen
             sendToTmux runWithResume rawText chatIdStr store)
      = ProxyReply chatIdStr
          (interpolate
             (response (fst (tryProxyMessage toLowerCase checkTmuxSession
                               captureTmuxScreen sendToTmux runWithResume
                               chatIdStr rawText store)))))
  /\ snd (routeMessage toLowerCase checkTmuxSession captureTmuxScreen sendToTmux
            runWithResume rawText chatIdStr store)
     = snd (tryProxyMessage toLowerCase checkTmuxSession captureTmuxScreen
              sendToTmux runWithResume chatIdStr rawText store).
Proof.
  intros Htext Hchat. unfold routeMessage.
  replace (truthy (Some rawText)) with true
    by (destruct rawText; [congruence|reflexivity]).
  replace (truthy (Some chatIdStr)) with true
    by (destruct chatIdStr; [congruence|reflexivity]).
  cbn [andb].
  pose proof (handled_response_truthy toLowerCase checkTmuxSession
                captureTmuxScreen sendToTmux runWithResume chatIdStr rawText
                store) as Hresp.
  destruct (tryProxyMessage toLowerCase checkTmuxSession captureTmuxScreen
              sendToTmux runWithResume chatIdStr rawText store)
    as [proxyResult store']. cbn [fst snd] in *.
  destruct (handled proxyResult) eqn:Hh.
  - rewrite (Hresp eq_refl). cbn [andb fst snd].
    split; [split; discriminate|]. split; [reflexivity|reflexivity].
  - cbn [andb fst snd]. split; [split; reflexivity|].
    split; [discriminate|reflexivity].
Qed.

Lemma gate_dispatches_iff_unhandled_witness :
  fst (routeMessage toLowerCaseBasic noTmux blankScreen deadTmux deadResume
         (js "run the tests") chat (storeWith tmuxEntryNoName)) = Dispatched.
Proof.
  destruct (gate_dispatches_iff_unhandled toLowerCaseBasic noTmux blankScreen
              deadTmux deadResume (js "run the tests") chat
              (storeWith tmuxEntryNoName)) as [[_ H] _].
  - discriminate.
  - discriminate.
  - apply H. vm_compute. reflexivity.
Defined.

End ProxyExtras.

(** ** Further properties of strings and of [extractNewContent] *)

Module TmuxExtras.
Import Tmux TmuxAux Examples Examples2.

Lemma trimStart_suffix (s : jsstring) : exists pre, s = pre ++ trimStart s.
Proof.
  induction s as [|c r [pre IH]]; simpl.
  - exists []. reflexivity.
  - destruct (isWhiteSpace c).
    + exists (c :: pre). simpl. f_equal. exact IH.
    + exists []. reflexivity.
Qed.

Lemma trimEnd_prefix (s : jsstring) : exists post, s = trimEnd s ++ post.
Proof.
  unfold trimEnd. destruct (trimStart_suffix (rev s)) as [pre H].
  exists (rev pre). rewrite <- rev_app_distr, <- H, rev_involutive. reflexivity.
Qed.

(** [trim] keeps a contiguous part of its argument. *)
Lemma trim_infix (s : jsstring) : exists pre post, s = pre ++ trim s ++ post.
Proof.
  unfold trim. destruct (trimStart_suffix s) as [pre Hpre].
  destruct (trimEnd_prefix (trimStart s)) as [post Hpost].
  exists pre, post. rewrite <- Hpost. exact Hpre.
Qed.

(** A trimmed string neither starts nor ends with white space. *)
Lemma trim_head (s : jsstring) c r :
  trim s = c :: r -> isWhiteSpace c = false.
Proof.
  unfold trim. intros H.
  destruct (trimEnd_prefix (trimStart s)) as [post Hpost].
  rewrite H in Hpost. simpl in Hpost.
  apply (trimStart_head s c (r ++ post)). exact Hpost.
Qed.

Lemma trim_last (s : jsstring) init c :
  trim s = init ++ [c] -> isWhiteSpace c = false.
Proof.
  unfold trim, trimEnd. intros H.
  apply (f_equal (@rev N)) in H.
  rewrite rev_involutive, rev_app_distr in H. simpl in H.
  apply (trimStart_head _ _ _ H).
Qed.

Lemma startsWith_spec (s p : jsstring) :
  startsWith s p = true <-> exists post, s = p ++ post.
Proof.
  revert s. induction p as [|a p IH]; intros s; simpl.
  - destruct s; split; eauto.
  - destruct s as [|b s]; simpl.
    + split; [discriminate|intros [post H]; discriminate].
    + rewrite andb_true_iff, N.eqb_eq, IH. split.
      * intros [-> [post ->]]. eauto.
      * intros [post [= -> ->]]. eauto.
Qed.

(** [s.includes(n)] holds exactly when [n] occurs in [s]. *)
Lemma includes_spec (s n : jsstring) :
  includes s n = true <-> exists pre post, s = pre ++ n ++ post.
Proof.
  induction s as [|c r IH].
  - cbn [includes]. rewrite orb_false_r, startsWith_spec. split.
    + intros [post H]. exists [], post. exact H.
    + intros (pre & post & H). destruct pre; [eauto|discriminate].
  - cbn [includes]. rewrite orb_true_iff, startsWith_spec, IH. split.
    + intros [[post H]|(pre & post & H)].
      * exists [], post. exact H.
      * exists (c :: pre), post. simpl. f_equal. exact H.
    + intros (pre & post & H). destruct pre as [|c' pre]; simpl in H.
      * left. eauto.
      * right. injection H as _ H. eauto.
Qed.

Lemma includes_infix (s pre post n : jsstring) :
  includes s n = true -> includes (pre ++ s ++ post) n = true.
Proof.
  rewrite !includes_spec. intros (a & b & ->).
  exists (pre ++ a), (b ++ post). rewrite <- !app_assoc. reflexivity.
Qed.

(** An occurrence of [n] in [a ++ x :: b], where [x] is not in [n], lies in
    [a] or in [b]. *)
Lemma occurrence_split (n a b pre post : jsstring) (x : N) :
  ~ In x n -> n <> [] ->
  pre ++ n ++ post = a ++ x :: b ->
  (exists post', a = pre ++ n ++ post') \/ (exists pre', b = pre' ++ n ++ post).
Proof.
  intros Hx Hn H.
  apply app_eq_app in H as [l [[-> H]|[-> H]]].
  - right. destruct l as [|y l]; simpl in H.
    + destruct n as [|y n]; [congruence|]. injection H as <- _.
      exfalso. apply Hx. left. reflexivity.
    + injection H as _ ->. exists l. reflexivity.
  - left. apply app_eq_app in H as [l2 [[-> H]|[-> H]]].
    + destruct l2 as [|y l2]; simpl in H.
      * exists []. rewrite !app_nil_r. reflexivity.
      * injection H as <- _. exfalso. apply Hx.
        apply in_or_app. right. left. reflexivity.
    + exists l2. reflexivity.
Qed.

(** A text without a line break that occurs in the joined lines occurs in
    one of the lines. *)
Lemma includes_joinLines (n : jsstring) : ~ In 10%N n -> n <> [] ->
  forall ls, includes (joinLines ls) n = true ->
  exists l, In l ls /\ includes l n = true.
Proof.
  intros Hx Hn ls. induction ls as [|l rest IH].
  - cbn [joinLines]. rewrite includes_spec. intros (pre & post & H).
    destruct pre; [|discriminate]. destruct n; [congruence|discriminate].
  - destruct rest as [|l' rest'].
    + cbn [joinLines]. intros H. exists l. split; [left; reflexivity|exact H].
    + change (joinLines (l :: l' :: rest'))
        with (l ++ 10%N :: joinLines (l' :: rest')).
      rewrite includes_spec. intros (pre & post & H). symmetry in H.
      apply occurrence_split in H as [[post' ->]|[pre' H]]; try assumption.
      * exists (pre ++ n ++ post'). split; [left; reflexivity|].
        apply includes_spec. eauto.
      * destruct IH as (l0 & Hin & Hl0).
        { apply includes_spec. eauto. }
        exists l0. split; [right; exact Hin|exact Hl0].
Qed.

(** No index lies strictly between 0 and [length - 3] when there are at most
    four new lines: the filter then keeps only lines that pass its four
    tests. *)
Lemma keepLine_short newLines l :
  (length newLines <= 4)%nat ->
  keepLine newLines l = true ->
  startsWith (trim l) PROMPT_GLYPH = false
  /\ includes l BYPASS_BANNER = false
  /\ includes l SEPARATOR = false
  /\ isBlank l = false.
Proof.
  intros Hlen. unfold keepLine. rewrite orb_true_iff.
  intros [H|H].
  - rewrite !andb_true_iff, !negb_true_iff in H. tauto.
  - rewrite andb_true_iff in H. destruct H as [H0 H3].
    apply Z.ltb_lt in H0, H3. lia.
Qed.

(** The result is never empty, and it neither starts nor ends with white
    space: it is trimmed text or the placeholder. *)
Theorem extract_result_trimmed (before after : jsstring) :
  extractNewContent before after <> []
  /\ (forall c r, extractNewContent before after = c :: r ->
                  isWhiteSpace c = false)
  /\ (forall init c, extractNewContent before after = init ++ [c] ->
                     isWhiteSpace c = false).
Proof.
  unfold extractNewContent.
  set (filtered := trim _).
  destruct filtered as [|c0 r0] eqn:Hf; cbn [truthy].
  - split; [discriminate|]. split.
    + intros c r [= <- _]. reflexivity.
    + intros init c H.
      assert (Hl : last NO_RESPONSE = Some c) by (rewrite H; apply last_snoc).
      vm_compute in Hl. injection Hl as <-. reflexivity.
  - split; [discriminate|]. split.
    + intros c r [= <- _]. apply (trim_head _ _ _ Hf).
    + intros init c H. rewrite <- Hf in H. apply (trim_last _ _ _ H).
Qed.

(** A short reply is clean: when at most four lines follow the divergence
    point, the returned text contains neither the separator nor the
    bypass-permissions banner. *)
Theorem extract_short_reply_clean (before after : jsstring) :
  (length (newLinesOf before after) <= 4)%nat ->
  includes (extractNewContent before after) SEPARATOR = false
  /\ includes (extractNewContent before after) BYPASS_BANNER = false.
Proof.
  intros Hlen. unfold extractNewContent. fold (newLinesOf before after).
  set (newLines := newLinesOf before after) in *.
  assert (Hclean : forall n, ~ In 10%N n -> n <> [] ->
            (forall l, keepLine newLines l = true -> includes l n = false) ->
            includes (trim (joinLines (List.filter (keepLine newLines) newLines))) n
            = false).
  { intros n Hx Hn Hkeep. apply not_true_is_false. intros Hinc.
    destruct (trim_infix (joinLines (List.filter (keepLine newLines) newLines)))
      as (pre & post & Heq).
    apply (includes_infix _ pre post) in Hinc. rewrite <- Heq in Hinc.
    apply (includes_joinLines n Hx Hn) in Hinc as (l & Hl & Hln).
    apply filter_In in Hl as [_ Hk]. rewrite (Hkeep l Hk) in Hln. discriminate. }
  destruct (truthy _).
  - split; apply Hclean.
    + vm_compute. intuition discriminate.
    + discriminate.
    + intros l Hk. apply (keepLine_short newLines l Hlen Hk).
    + vm_compute. intuition discriminate.
    + discriminate.
    + intros l Hk. apply (keepLine_short newLines l Hlen Hk).
  - split; reflexivity.
Qed.

Lemma extract_short_reply_clean_witness :
  includes (extractNewContent (js "x")
              (js "x" ++ [10%N] ++ SEPARATOR ++ [10%N] ++ js "answer" ++ [10%N]
               ++ SEPARATOR ++ [10%N] ++ js "❯ ")) SEPARATOR = false
  /\ includes (extractNewContent (js "x")
                 (js "x" ++ [10%N] ++ SEPARATOR ++ [10%N] ++ js "answer" ++ [10%N]
                  ++ SEPARATOR ++ [10%N] ++ js "❯ ")) BYPASS_BANNER = false.
Proof.
  apply (extract_short_reply_clean (js "x")
           (js "x" ++ [10%N] ++ SEPARATOR ++ [10%N] ++ js "answer" ++ [10%N]
            ++ SEPARATOR ++ [10%N] ++ js "❯ ")).
  vm_compute. lia.
Defined.

(** When the after-capture has no line beyond those it shares with the
    before-capture (the pane did not change, or lost lines at its end),
    there is no new content and the placeholder is returned. *)
Theorem extract_nothing_new (before after : jsstring) (gone : list jsstring) :
  splitLines before = splitLines after ++ gone ->
  extractNewContent before after = NO_RESPONSE.
Proof.
  intros Hlines. unfold extractNewContent. rewrite Hlines.
  assert (Hd : forall al i dflt, divergeFrom i (al ++ gone) al dflt = dflt).
  { clear. induction al as [|a al IH]; intros i dflt; simpl.
    - destruct gone; reflexivity.
    - rewrite bool_decide_eq_true_2 by reflexivity. apply IH. }
  rewrite Hd, drop_ge.
  - reflexivity.
  - rewrite length_app. lia.
Qed.

Lemma extract_nothing_new_witness :
  extractNewContent (js "❯ ls" ++ [10%N] ++ js "out" ++ [10%N] ++ js "❯ ")
                    (js "❯ ls" ++ [10%N] ++ js "out")
  = NO_RESPONSE.
Proof.
  apply (extract_nothing_new _ _ [js "❯ "]). reflexivity.
Defined.

End TmuxExtras.

(** ** Properties of the tmux reply-wait protocol and of the resume driver *)

Module WaitExtras.
Import Tmux TmuxWait Examples Examples2.

Lemma isResponseComplete_empty : isResponseComplete [] = false.
Proof. reflexivity. Qed.






Lemma pollLoop_completed env : forall fuel i t lastCapture stableStart j,
  loopInvariant env i lastCapture stableStart ->
  pollLoop fuel env i t lastCapture stableStart = Completed j ->
  isResponseComplete (paneAt env j) = true
  /\ exists k, j = S (S k)
       /\ paneAt env (S (S k)) = paneAt env (S k)
       /\ paneAt env (S k) = paneAt env k.
Proof.
  induction fuel as [|fuel IH]; intros i t lastCapture stableStart j Hinv;
    cbn [pollLoop]; [discriminate|].
  destruct Hinv as (H0 & HS & Hss).
  destruct (t - startTime env <? MAX_WAIT_MS); [|discriminate].
  destruct (bool_decide_reflect (paneAt env i = lastCapture)) as [Heq|Hneq].
  - destruct (Z.eqb_spec stableStart 0) as [Hz|Hnz].
    + rewrite Z.sub_diag. cbn [Z.leb STABLE_DURATION_MS Z.compare andb].
      apply IH. split; [discriminate|]. split.
      * intros k [= <-]. symmetry. exact Heq.
      * intros _. destruct i as [|k].
        -- left. split; [reflexivity|]. rewrite Heq. apply H0. reflexivity.
        -- right. exists k. split; [reflexivity|].
           rewrite Heq. apply HS. reflexivity.
    + destruct (_ && isResponseComplete (paneAt env i)) eqn:Hdone.
      * intros [= <-]. apply andb_true_iff in Hdone as [_ Hcomplete].
        split; [exact Hcomplete|].
        destruct (Hss Hnz) as [[-> Hempty]|(k & -> & Hk)].
        -- rewrite Heq, (HS 0%nat eq_refl), Hempty, isResponseComplete_empty
             in Hcomplete. discriminate.
        -- exists k. split; [reflexivity|]. split; [|exact Hk].
           rewrite Heq. apply HS. reflexivity.
      * apply IH. split; [discriminate|]. split.
        -- intros k [= <-]. symmetry. exact Heq.
        -- intros _. destruct i as [|k].
           ++ left. split; [reflexivity|]. rewrite Heq. apply H0. reflexivity.
           ++ right. exists k. split; [reflexivity|].
              rewrite Heq. apply HS. reflexivity.
  - apply IH. split; [discriminate|]. split.
    + intros k [= <-]. reflexivity.
    + intros Hc. congruence.
Qed.

Lemma initial_invariant env : loopInvariant env 0 [] 0.
Proof.
  split; [reflexivity|]. split; [discriminate|]. intros H. congruence.
Qed.


(** A reply is taken as complete only from a pane that is stable and idle:
    when the wait ends inside the loop, at poll j, the pane showed the idle
    prompt with no busy marker and the last three captures (polls j-2, j-1
    and j) were identical. In particular no reply is returned before the
    third poll. *)
Theorem wait_completes_only_when_stable (fuel : nat) (env : TmuxEnv) (j : nat) :
  pollLoop fuel env 0 (startTime env) [] 0 = Completed j ->
  isResponseComplete (paneAt env j) = true
  /\ (2 <= j)%nat
  /\ paneAt env j = paneAt env (j - 1)
  /\ paneAt env (j - 1) = paneAt env (j - 2).
Proof.
  intros H.
  destruct (pollLoop_completed env fuel 0 (startTime env) [] 0 j
              (initial_invariant env) H) as (Hc & k & -> & H1 & H2).
  split; [exact Hc|]. split; [lia|].
  replace (S (S k) - 1)%nat with (S k) by lia.
  replace (S (S k) - 2)%nat with k by lia. auto.
Qed.

Lemma wait_completes_only_when_stable_witness :
  isResponseComplete (paneAt steadyEnv 4) = true
  /\ (2 <= 4)%nat
  /\ paneAt steadyEnv 4 = paneAt steadyEnv (4 - 1)
  /\ paneAt steadyEnv (4 - 1) = paneAt steadyEnv (4 - 2).
Proof.
  apply (wait_completes_only_when_stable 61 steadyEnv 4).
  vm_compute. reflexivity.
Defined.













End WaitExtras.

(** ** Properties of the resume driver *)

Module ResumeExtras.
Import Resume ResumeRunner Examples Examples2.

(** The result of runWithResume has one of two shapes. It is a success
    exactly when spawnSync reports no error and exit status 0, and then the
    output is the trimmed stdout and there is no error text. Otherwise the
    output is empty and an error text is present; after a non-zero (or
    missing) exit status that text is never empty: the trimmed stderr, or the
    exit-code message when stderr is blank. *)
Theorem resume_result_shape (spawnSync : SpawnRequest -> SpawnResult)
    (sessionId cwd message : jsstring) :
  (success (runWithResume spawnSync sessionId cwd message) = true <->
   spawnError (spawnSync (resumeRequest sessionId cwd message)) = None
   /\ status (spawnSync (resumeRequest sessionId cwd message)) = Some 0)
  /\ (success (runWithResume spawnSync sessionId cwd message) = true ->
      output (runWithResume spawnSync sessionId cwd message)
      = trim (orEmpty (stdout (spawnSync (resumeRequest sessionId cwd message))))
      /\ error (runWithResume spawnSync sessionId cwd message) = None)
  /\ (success (runWithResume spawnSync sessionId cwd message) = false ->
      output (runWithResume spawnSync sessionId cwd message) = []
      /\ exists e, error (runWithResume spawnSync sessionId cwd message) = Some e
           /\ (spawnError (spawnSync (resumeRequest sessionId cwd message)) = None
               -> e <> [])).
Proof.
  unfold runWithResume.
  destruct (spawnSync (resumeRequest sessionId cwd message))
    as [err st out errout]. cbn [spawnError status stdout stderr].
  destruct err as [e|].
  - cbn [success output error]. split; [split; [discriminate|intros [H _]; discriminate]|].
    split; [discriminate|]. intros _. split; [reflexivity|].
    exists e. split; [reflexivity|discriminate].
  - destruct (bool_decide_reflect (st = Some 0)) as [->|Hst];
      cbn [negb success output error].
    + split; [split; auto|]. split; [auto|discriminate].
    + split; [split; [discriminate|intros [_ H]; congruence]|].
      split; [discriminate|]. intros _. split; [reflexivity|].
      eexists. split; [reflexivity|]. intros _.
      destruct (trim (orEmpty errout)) as [|c r]; cbn [truthy];
        [|discriminate].
      intros H. apply app_eq_nil in H as [H _]. vm_compute in H. discriminate.
Qed.

Example resume_blank_stderr :
  runWithResume failedSpawn (js "0f3c") (js "/srv/api") (js "hi")
  = mkResumeRunResult false [] (Some (js "claude завершился с кодом 2")).
Proof. reflexivity. Qed.

Example resume_trims_stdout :
  runWithResume okSpawn (js "0f3c") (js "/srv/api") (js "hi")
  = mkResumeRunResult true (js "hello") None.
Proof. reflexivity. Qed.

End ResumeExtras.
